(** * PromptLint: the prompt-refactoring request/response protocol

    A shallow embedding of [src/services/llm.ts] (the [LLMService] class with
    its [LLMError] taxonomy) and the properties of its single operation,
    [refactorPrompt].

    The embedding follows the TypeScript source statement by statement.
    The pieces of the JavaScript runtime the source relies on (strings of
    UTF-16 code units, [String.prototype.trim], truthiness, template
    literals, optional chaining, [JSON.stringify], exceptions) are modelled
    first; the service itself comes after them. *)

From Stdlib Require Import ZArith NArith List String Ascii Bool Lia DecimalString.
Import ListNotations.

Set Warnings "-register-all".

Local Open Scope string_scope.
Local Open Scope list_scope.

(* ===================================================================== *)
(** ** JavaScript strings *)
(* ===================================================================== *)

(** A JavaScript string is a finite sequence of UTF-16 code units. *)
Definition code_unit := N.
Definition jsstring := list code_unit.

(** String literals of the source are ASCII; [lit] gives their code units. *)
Definition lit (s : string) : jsstring :=
  map N_of_ascii (list_ascii_of_string s).

Definition code_unit_eqb : code_unit -> code_unit -> bool := N.eqb.

Fixpoint jsstring_eqb (a b : jsstring) : bool :=
  match a, b with
  | [], [] => true
  | x :: a', y :: b' => code_unit_eqb x y && jsstring_eqb a' b'
  | _, _ => false
  end.

(** The code points [String.prototype.trim] strips: WhiteSpace (TAB, VT, FF,
    ZWNBSP and the Unicode category Zs) and LineTerminator (LF, CR, LS, PS)
    of ECMA-262.  All of them lie in the Basic Multilingual Plane, so the
    test is on single code units. *)
Definition is_white_space (c : code_unit) : bool :=
  (existsb (N.eqb c)
     [ 9; 10; 11; 12; 13; 32; 160; 5760; 8232; 8233; 8239; 8287; 12288; 65279 ]
   || ((8192 <=? c) && (c <=? 8202)))%N.

Fixpoint trimStart (s : jsstring) : jsstring :=
  match s with
  | [] => []
  | c :: s' => if is_white_space c then trimStart s' else s
  end.

Definition trimEnd (s : jsstring) : jsstring := rev (trimStart (rev s)).

(** [s.trim()] *)
Definition trim (s : jsstring) : jsstring := trimEnd (trimStart s).

Fixpoint startsWith (s p : jsstring) {struct p} : bool :=
  match p, s with
  | [], _ => true
  | x :: p', y :: s' => code_unit_eqb x y && startsWith s' p'
  | _ :: _, [] => false
  end.

(** [s.includes(p)] *)
Fixpoint includes (s p : jsstring) : bool :=
  startsWith s p ||
  match s with
  | [] => false
  | _ :: s' => includes s' p
  end.

(** The text [p] occurs somewhere inside [s]. *)
Definition contains (s p : jsstring) : Prop :=
  exists before after, s = before ++ p ++ after.

(** A string made of white space only (the empty string included). *)
Definition whitespace_only (s : jsstring) : Prop :=
  Forall (fun c => is_white_space c = true) s.

(** The decimal text of an integer-valued Number, as a template literal or
    [String(n)] prints it (integers below 10^21 in magnitude are printed in
    plain decimal notation). *)
Definition integer_toString (z : Z) : jsstring :=
  lit (NilZero.string_of_int (Z.to_int z)).

(* ===================================================================== *)
(** ** JavaScript values *)
(* ===================================================================== *)

(** A Number is represented by the text [Number::toString] gives it.  That
    text determines the Number up to the sign of zero, and together with
    truthiness it is the only observation this program makes of a Number
    that is not an HTTP status code. *)
Inductive number : Type :=
| Num (rendering : jsstring).

Definition Number_toString (n : number) : jsstring :=
  match n with Num r => r end.

Definition number_of_Z (z : Z) : number := Num (integer_toString z).

(** The values [JSON.parse] yields and an object literal of strings and
    Numbers builds, plus [undefined] for a property that is not there.
    An [VObject] lists the object's own properties in insertion order. *)
Inductive value : Type :=
| VUndefined
| VNull
| VBool (b : bool)
| VNumber (n : number)
| VString (s : jsstring)
| VArray (elements : list value)
| VObject (properties : list (jsstring * value)).

(** ToBoolean: the test behind [if (v)], [!v] and [v ? a : b]. *)
Definition truthy (v : value) : bool :=
  match v with
  | VUndefined | VNull => false
  | VBool b => b
  | VNumber n =>
      negb (jsstring_eqb (Number_toString n) (lit "0")
            || jsstring_eqb (Number_toString n) (lit "NaN"))
  | VString s => negb (jsstring_eqb s [])
  | VArray _ | VObject _ => true
  end.

Fixpoint own_property (props : list (jsstring * value)) (key : jsstring)
  : option value :=
  match props with
  | [] => None
  | (k, v) :: rest => if jsstring_eqb k key then Some v else own_property rest key
  end.

(* ===================================================================== *)
(** ** Exceptions *)
(* ===================================================================== *)

(** The [code] of an [LLMError]. *)
Inductive LLMErrorCode : Type :=
| NO_API_KEY
| API_ERROR
| RATE_LIMIT
| INVALID_RESPONSE
| NETWORK_ERROR.

(** [class LLMError extends Error]: a message and a code. *)
Record LLMError : Type := mkLLMError {
  message : jsstring;
  code : LLMErrorCode
}.

(** The built-in error classes the [catch] clause can tell apart. *)
Inductive ErrorClass : Type :=
| TypeError
| SyntaxError
| OtherError.

(** What a [throw] can carry: an [LLMError]; another [Error] with its class
    and its [message], a string; or a value that is no [Error] at all, given
    by what [String(value)] does with it: either the text the conversion
    yields, or, when the conversion itself throws (a value with no usable
    [toString] and [valueOf] such as [Object.create(null)], or one whose
    [toString] throws), the exception it raises. *)
Inductive thrown : Type :=
| ThrownLLMError (e : LLMError)
| ThrownError (cls : ErrorClass) (msg : jsstring)
| ThrownValue (rendering : jsstring)
| ThrownUnprintable (raised : thrown).

(** The outcome of evaluating an expression: an exception or a value. *)
Inductive completion (A : Type) : Type :=
| Throw (e : thrown)
| Normal (a : A).
Arguments Throw {A} e.
Arguments Normal {A} a.

Definition completion_bind {A B} (c : completion A) (k : A -> completion B)
  : completion B :=
  match c with
  | Throw e => Throw e
  | Normal a => k a
  end.

(* ===================================================================== *)
(** ** Property access, conversion to string *)
(* ===================================================================== *)

(** The property names the service reads by name.  None of them is defined
    on [Object.prototype], [Array.prototype], [String.prototype],
    [Number.prototype] or [Boolean.prototype], and none is an array index. *)
Inductive property_name : Type :=
| P_error
| P_message
| P_choices
| P_content.

Definition property_key (p : property_name) : jsstring :=
  match p with
  | P_error => lit "error"
  | P_message => lit "message"
  | P_choices => lit "choices"
  | P_content => lit "content"
  end.

Definition cannot_read (receiver : string) (key : jsstring) : thrown :=
  ThrownError TypeError
    (lit "Cannot read properties of " ++ lit receiver
       ++ lit " (reading '" ++ key ++ lit "')").

(** [v.p]: reading a property of [undefined] or [null] throws; objects
    answer with their own property; every other value has no such property. *)
Definition Get (v : value) (p : property_name) : completion value :=
  match v with
  | VUndefined => Throw (cannot_read "undefined" (property_key p))
  | VNull => Throw (cannot_read "null" (property_key p))
  | VObject props =>
      Normal (match own_property props (property_key p) with
              | Some x => x
              | None => VUndefined
              end)
  | VBool _ | VNumber _ | VString _ | VArray _ => Normal VUndefined
  end.

(** [v[0]]: the first element of an array, the first code unit of a string,
    the own property named "0" of an object. *)
Definition Get_index0 (v : value) : completion value :=
  match v with
  | VUndefined => Throw (cannot_read "undefined" (lit "0"))
  | VNull => Throw (cannot_read "null" (lit "0"))
  | VArray elements =>
      Normal (match elements with
              | x :: _ => x
              | [] => VUndefined
              end)
  | VString s =>
      Normal (match s with
              | c :: _ => VString [c]
              | [] => VUndefined
              end)
  | VObject props =>
      Normal (match own_property props (lit "0") with
              | Some x => x
              | None => VUndefined
              end)
  | VBool _ | VNumber _ => Normal VUndefined
  end.

(** Optional chaining [v?.access]: [undefined] when [v] is [undefined] or
    [null], the access otherwise. *)
Definition optional_chain (v : value) (access : value -> completion value)
  : completion value :=
  match v with
  | VUndefined | VNull => Normal VUndefined
  | _ => access v
  end.

Definition cannot_convert : thrown :=
  ThrownError TypeError (lit "Cannot convert object to primitive value").

Section ArrayJoin.

Variable toString : value -> completion jsstring.

(** The text of one element in [Array.prototype.join]. *)
Definition element_text (x : value) : completion jsstring :=
  match x with
  | VUndefined | VNull => Normal []
  | _ => toString x
  end.

(** [Array.prototype.join] with the default separator. *)
Fixpoint join_elements (l : list value) : completion jsstring :=
  match l with
  | [] => Normal []
  | x :: rest =>
      completion_bind (element_text x) (fun first =>
        match rest with
        | [] => Normal first
        | _ :: _ =>
            completion_bind (join_elements rest) (fun others =>
              Normal (first ++ lit "," ++ others))
        end)
  end.

End ArrayJoin.

(** ToString, the conversion a template literal applies to a substitution.
    An array prints its elements joined by commas, [null] and [undefined]
    elements as nothing; an object prints as [[object Object]] through
    [Object.prototype.toString], unless an own property shadows [toString]
    (a parsed JSON value is never callable, and [valueOf] returns no
    primitive), in which case the conversion throws. *)
Fixpoint ToString (v : value) : completion jsstring :=
  match v with
  | VUndefined => Normal (lit "undefined")
  | VNull => Normal (lit "null")
  | VBool b => Normal (lit (if b then "true" else "false"))
  | VNumber n => Normal (Number_toString n)
  | VString s => Normal s
  | VArray elements => join_elements ToString elements
  | VObject props =>
      match own_property props (lit "toString") with
      | Some _ => Throw cannot_convert
      | None => Normal (lit "[object Object]")
      end
  end.

(** [v.trim()] where the source calls it on [refactoredPrompt]: only a
    string has the method. *)
Definition call_trim (v : value) : completion jsstring :=
  match v with
  | VString s => Normal (trim s)
  | VUndefined => Throw (cannot_read "undefined" (lit "trim"))
  | VNull => Throw (cannot_read "null" (lit "trim"))
  | _ => Throw (ThrownError TypeError (lit "refactoredPrompt.trim is not a function"))
  end.

(* ===================================================================== *)
(** ** JSON.stringify *)
(* ===================================================================== *)

Definition quotation_mark : code_unit := 34%N.
Definition reverse_solidus : code_unit := 92%N.

Definition hex_digit (n : N) : code_unit :=
  (if n <? 10 then 48 + n else 87 + n)%N.

(** [\uXXXX] with four lower-case hexadecimal digits. *)
Definition UnicodeEscape (c : code_unit) : jsstring :=
  [ reverse_solidus; 117%N;
    hex_digit ((c / 4096) mod 16); hex_digit ((c / 256) mod 16);
    hex_digit ((c / 16) mod 16); hex_digit (c mod 16) ]%N.

Definition is_leading_surrogate (c : code_unit) : bool :=
  ((55296 <=? c) && (c <=? 56319))%N.

Definition is_trailing_surrogate (c : code_unit) : bool :=
  ((56320 <=? c) && (c <=? 57343))%N.

(** How QuoteJSONString writes one code unit that is not a surrogate. *)
Definition quote_code_unit (c : code_unit) : jsstring :=
  (if c =? 8 then [reverse_solidus; 98]
   else if c =? 9 then [reverse_solidus; 116]
   else if c =? 10 then [reverse_solidus; 110]
   else if c =? 12 then [reverse_solidus; 102]
   else if c =? 13 then [reverse_solidus; 114]
   else if c =? 34 then [reverse_solidus; quotation_mark]
   else if c =? 92 then [reverse_solidus; reverse_solidus]
   else if c <? 32 then UnicodeEscape c
   else [c])%N.

(** The characters between the quotation marks: a surrogate pair is copied,
    a lone surrogate is escaped. *)
Fixpoint quote_code_units (s : jsstring) : jsstring :=
  match s with
  | [] => []
  | c :: rest =>
      if is_leading_surrogate c then
        match rest with
        | d :: rest' =>
            if is_trailing_surrogate d then c :: d :: quote_code_units rest'
            else UnicodeEscape c ++ quote_code_units rest
        | [] => UnicodeEscape c
        end
      else if is_trailing_surrogate c then UnicodeEscape c ++ quote_code_units rest
      else quote_code_unit c ++ quote_code_units rest
  end.

Definition QuoteJSONString (s : jsstring) : jsstring :=
  quotation_mark :: quote_code_units s ++ [quotation_mark].

Fixpoint join (separator : jsstring) (parts : list jsstring) : jsstring :=
  match parts with
  | [] => []
  | [p] => p
  | p :: rest => p ++ separator ++ join separator rest
  end.

Definition is_finite (n : number) : bool :=
  negb (jsstring_eqb (Number_toString n) (lit "NaN")
        || jsstring_eqb (Number_toString n) (lit "Infinity")
        || jsstring_eqb (Number_toString n) (lit "-Infinity")).

(** SerializeJSONProperty without indentation: [None] stands for the
    [undefined] result, which drops the property from an object and prints
    as [null] inside an array. *)
Fixpoint SerializeJSONProperty (v : value) : option jsstring :=
  match v with
  | VUndefined => None
  | VNull => Some (lit "null")
  | VBool b => Some (lit (if b then "true" else "false"))
  | VNumber n => Some (if is_finite n then Number_toString n else lit "null")
  | VString s => Some (QuoteJSONString s)
  | VArray elements =>
      Some (lit "["
              ++ join (lit ",")
                   (map (fun x =>
                           match SerializeJSONProperty x with
                           | Some t => t
                           | None => lit "null"
                           end) elements)
              ++ lit "]")
  | VObject props =>
      Some (lit "{"
              ++ join (lit ",")
                   ((fix members (l : list (jsstring * value)) : list jsstring :=
                       match l with
                       | [] => []
                       | (k, x) :: rest =>
                           match SerializeJSONProperty x with
                           | Some t => (QuoteJSONString k ++ lit ":" ++ t) :: members rest
                           | None => members rest
                           end
                       end) props)
              ++ lit "}")
  end.

(** [JSON.stringify(v)] *)
Definition JSON_stringify (v : value) : option jsstring :=
  SerializeJSONProperty v.

(** The value of a hexadecimal digit. *)
Definition hex_value (c : code_unit) : option N :=
  (if (48 <=? c) && (c <=? 57) then Some (c - 48)
   else if (97 <=? c) && (c <=? 102) then Some (c - 87)
   else if (65 <=? c) && (c <=? 70) then Some (c - 55)
   else None)%N.

(** The character a two-character escape stands for. *)
Definition simple_escape (e : code_unit) : option code_unit :=
  (if e =? 98 then Some 8
   else if e =? 116 then Some 9
   else if e =? 110 then Some 10
   else if e =? 102 then Some 12
   else if e =? 114 then Some 13
   else if e =? 34 then Some 34
   else if e =? 92 then Some 92
   else if e =? 47 then Some 47
   else None)%N.

(** How a JSON reader decodes the characters of a string literal: an escape
    gives the character it stands for, an unescaped quotation mark or
    control character is refused, anything else is taken as it is. *)
Fixpoint unquote_code_units (s : jsstring) : option jsstring :=
  match s with
  | [] => Some []
  | c :: rest =>
      if (c =? 92)%N then
        match rest with
        | [] => None
        | e :: rest1 =>
            if (e =? 117)%N then
              match rest1 with
              | h1 :: h2 :: h3 :: h4 :: rest2 =>
                  match hex_value h1, hex_value h2, hex_value h3, hex_value h4,
                        unquote_code_units rest2 with
                  | Some a, Some b, Some c', Some d, Some t =>
                      Some ((4096 * a + 256 * b + 16 * c' + d)%N :: t)
                  | _, _, _, _, _ => None
                  end
              | _ => None
              end
            else
              match simple_escape e, unquote_code_units rest1 with
              | Some x, Some t => Some (x :: t)
              | _, _ => None
              end
        end
      else if ((c =? 34) || (c <? 32))%N then None
      else option_map (cons c) (unquote_code_units rest)
  end.

(** Reading a JSON string literal, quotation marks included, as the
    receiving end does.  It serves to state that [QuoteJSONString] loses
    nothing. *)
Definition read_JSON_string (s : jsstring) : option jsstring :=
  match s with
  | first :: rest =>
      match rev rest with
      | last :: inner =>
          if ((first =? 34) && (last =? 34))%N then unquote_code_units (rev inner)
          else None
      | [] => None
      end
  | [] => None
  end.

(* ===================================================================== *)
(** ** The service: configuration, transport, promises *)
(* ===================================================================== *)

(** [SYSTEM_PROMPT]: the instruction sent as the first message. *)
Definition SYSTEM_PROMPT : jsstring := lit
"You are an expert prompt engineer specializing in crafting high-quality prompts for Large Language Models (LLMs) like ChatGPT, Claude, and other AI systems.

Your task is to REFACTOR and IMPROVE the user's prompt. You must NOT answer or respond to the prompt itself.

## Your Refactoring Guidelines:

1. **Clarity**: Remove vague language, ambiguous terms, and unclear instructions
2. **Structure**: Organize the prompt with clear sections when appropriate:
   - Role/Persona (if beneficial)
   - Context/Background
   - Task/Objective
   - Constraints/Requirements
   - Output Format
3. **Specificity**: Add specific details, examples, or constraints where the original is too vague
4. **Intent Preservation**: Maintain the original intent and goal of the prompt
5. **Actionability**: Ensure the prompt gives the LLM clear, actionable instructions

## Output Format:

Provide ONLY the refactored prompt. Do not include:
- Explanations of your changes
- Commentary about the original prompt
- Answers to the prompt
- Meta-discussion

Just output the improved, ready-to-use prompt.".

(** [interface LLMConfig] *)
Record LLMConfig : Type := mkLLMConfig {
  apiKey : jsstring;
  apiEndpoint : jsstring;
  model : jsstring;
  maxTokens : number
}.

(** The [promptlint] section of the editor settings: what the user has set,
    [None] for a setting left unset. *)
Record WorkspaceConfiguration : Type := mkWorkspaceConfiguration {
  setting_apiKey : option jsstring;
  setting_apiEndpoint : option jsstring;
  setting_model : option jsstring;
  setting_maxTokens : option number
}.

(** [config.get(name, defaultValue)] *)
Definition config_get {A} (setting : option A) (defaultValue : A) : A :=
  match setting with
  | Some x => x
  | None => defaultValue
  end.

(** [LLMService.getConfig] *)
Definition getConfig (config : WorkspaceConfiguration) : LLMConfig :=
  {| apiKey := config_get (setting_apiKey config) [];
     apiEndpoint := config_get (setting_apiEndpoint config)
                      (lit "https://api.openai.com/v1/chat/completions");
     model := config_get (setting_model config) (lit "gpt-4");
     maxTokens := config_get (setting_maxTokens config) (number_of_Z 2048) |}.

(** The second argument of [fetch]. *)
Record RequestInit : Type := mkRequestInit {
  method : jsstring;
  headers : list (jsstring * jsstring);
  body : option jsstring
}.

(** One invocation of the transport. *)
Record FetchCall : Type := mkFetchCall {
  url : jsstring;
  init : RequestInit
}.

(** What the service reads of a [Response]: the status code, the header
    lookup [headers.get] ([None] is the [null] of an absent header), and the
    outcomes of [text()] and [json()], each of which may reject. *)
Record Response : Type := mkResponse {
  status : Z;
  headers_get : jsstring -> option jsstring;
  text : completion jsstring;
  json : completion value
}.

(** [response.ok]: the status is in the range 200-299. *)
Definition ok (response : Response) : bool :=
  ((200 <=? status response) && (status response <=? 299))%Z.

(** The network as the host supplies it: a call is answered by a response
    or by an exception. *)
Definition Transport : Type := FetchCall -> completion Response.

(** An asynchronous computation: it extends the log of the calls made on
    the transport and settles to a value or to a rejection. *)
Definition async (A : Type) : Type :=
  list FetchCall -> list FetchCall * completion A.

Definition resolve {A} (a : A) : async A := fun log => (log, Normal a).

Definition reject {A} (e : thrown) : async A := fun log => (log, Throw e).

(** [await p] for a promise that makes no call of its own: it settles to
    the value or the rejection it carries. *)
Definition await {A} (c : completion A) : async A := fun log => (log, c).

(** A synchronous expression inside an [async] function: its exception
    rejects the promise. *)
Definition evaluate {A} (c : completion A) : async A := fun log => (log, c).

Definition async_bind {A B} (c : async A) (k : A -> async B) : async B :=
  fun log =>
    match c log with
    | (log', Normal a) => k a log'
    | (log', Throw e) => (log', Throw e)
    end.

Notation "x <- c ;; k" := (async_bind c (fun x => k))
  (at level 61, c at next level, right associativity).

(** [try { body } catch (error) { handler }] *)
Definition try_catch {A} (body : async A) (handler : thrown -> async A)
  : async A :=
  fun log =>
    match body log with
    | (log', Throw e) => handler e log'
    | settled => settled
    end.

(** [fetch(url, init)]: the call is recorded, the transport answers. *)
Definition fetch (net : Transport) (u : jsstring) (i : RequestInit)
  : async Response :=
  fun log =>
    let call := {| url := u; init := i |} in
    (log ++ [call], net call).

(** A [string | null] as a value, for the truthiness test. *)
Definition string_or_null (o : option jsstring) : value :=
  match o with
  | Some s => VString s
  | None => VNull
  end.

Definition instanceof_LLMError (error : thrown) : bool :=
  match error with
  | ThrownLLMError _ => true
  | _ => false
  end.

(** [error instanceof TypeError && error.message.includes('fetch')] *)
Definition is_fetch_TypeError (error : thrown) : bool :=
  match error with
  | ThrownError TypeError msg => includes msg (lit "fetch")
  | _ => false
  end.

(** [error instanceof Error ? error.message : String(error)]; [LLMError]
    extends [Error].  The conversion of a value that is no [Error] may throw. *)
Definition message_or_String (error : thrown) : completion jsstring :=
  match error with
  | ThrownLLMError e => Normal (message e)
  | ThrownError _ msg => Normal msg
  | ThrownValue rendering => Normal rendering
  | ThrownUnprintable raised => Throw raised
  end.

(* ===================================================================== *)
(** ** LLMService *)
(* ===================================================================== *)

Definition no_api_key_message : jsstring :=
  lit "No API key configured. Please set your API key in Settings > Extensions > PromptLint.".

Definition invalid_api_key_message : jsstring :=
  lit "Invalid API key. Please check your API key in Settings > Extensions > PromptLint.".

Definition network_error_message : jsstring :=
  lit "Network error: Unable to connect to the API. Please check your internet connection.".

Definition invalid_response_message : jsstring :=
  lit "Invalid response from API: No content in response".

(** [throw new LLMError(message, code)] *)
Definition throw_LLMError {A} (msg : jsstring) (c : LLMErrorCode) : async A :=
  reject (ThrownLLMError {| message := msg; code := c |}).

(** [LLMService.validateApiKey] *)
Definition validateApiKey (key : jsstring) : completion unit :=
  if negb (truthy (VString key)) || jsstring_eqb (trim key) [] then
    Throw (ThrownLLMError {| message := no_api_key_message; code := NO_API_KEY |})
  else Normal tt.

(** The object literal [requestBody]. *)
Definition requestBody (config : LLMConfig) (rawPrompt : jsstring) : value :=
  VObject
    [ (lit "model", VString (model config));
      (lit "messages",
       VArray
         [ VObject [ (lit "role", VString (lit "system"));
                     (lit "content", VString SYSTEM_PROMPT) ];
           VObject [ (lit "role", VString (lit "user"));
                     (lit "content", VString rawPrompt) ] ]);
      (lit "max_tokens", VNumber (maxTokens config));
      (lit "temperature", VNumber (Num (lit "0.7"))) ].

(** The call [fetch(config.apiEndpoint, {...})] sends. *)
Definition request (config : LLMConfig) (rawPrompt : jsstring) : RequestInit :=
  {| method := lit "POST";
     headers := [ (lit "Content-Type", lit "application/json");
                  (lit "Authorization", lit "Bearer " ++ apiKey config) ];
     body := JSON_stringify (requestBody config rawPrompt) |}.

(** [data.choices?.[0]?.message?.content] *)
Definition choices_0_message_content (data : value) : completion value :=
  completion_bind (Get data P_choices) (fun choices =>
  completion_bind (optional_chain choices Get_index0) (fun choice =>
  completion_bind (optional_chain choice (fun c => Get c P_message)) (fun msg =>
  optional_chain msg (fun m => Get m P_content)))).

(** The body of the [try] block, from the response on. *)
Definition interpret (response : Response) : async jsstring :=
  (* Handle rate limiting *)
  if (status response =? 429)%Z then
    let retryAfter := headers_get response (lit "retry-after") in
    throw_LLMError
      (lit "Rate limit exceeded. Please try again "
         ++ match retryAfter with
            | Some seconds =>
                if truthy (string_or_null retryAfter)
                then lit "in " ++ seconds ++ lit " seconds"
                else lit "later"
            | None => lit "later"
            end
         ++ lit ".")
      RATE_LIMIT
  (* Handle authentication errors *)
  else if (status response =? 401)%Z then
    throw_LLMError invalid_api_key_message NO_API_KEY
  (* Handle other HTTP errors *)
  else if negb (ok response) then
    errorBody <- await (text response) ;;
    throw_LLMError
      (lit "API request failed (" ++ integer_toString (status response)
         ++ lit "): " ++ errorBody)
      API_ERROR
  else
    data <- await (json response) ;;
    (* Check for API-level errors *)
    data_error <- evaluate (Get data P_error) ;;
    if truthy data_error then
      data_error_message <- evaluate (Get data_error P_message) ;;
      shown <- evaluate (ToString data_error_message) ;;
      throw_LLMError (lit "API error: " ++ shown) API_ERROR
    else
      (* Extract the refactored prompt from the response *)
      refactoredPrompt <- evaluate (choices_0_message_content data) ;;
      if negb (truthy refactoredPrompt) then
        throw_LLMError invalid_response_message INVALID_RESPONSE
      else
        evaluate (call_trim refactoredPrompt).

(** The [catch] clause. *)
Definition classify (error : thrown) : async jsstring :=
  (* Re-throw LLMErrors as-is *)
  if instanceof_LLMError error then reject error
  (* Handle network errors *)
  else if is_fetch_TypeError error then
    throw_LLMError network_error_message NETWORK_ERROR
  (* Handle unexpected errors *)
  else
    shown <- evaluate (message_or_String error) ;;
    throw_LLMError (lit "Unexpected error: " ++ shown) API_ERROR.

(** [LLMService.refactorPrompt] *)
Definition refactorPrompt (settings : WorkspaceConfiguration) (net : Transport)
    (rawPrompt : jsstring) : async jsstring :=
  let config := getConfig settings in
  _ <- evaluate (validateApiKey (apiKey config)) ;;
  try_catch
    (response <- fetch net (apiEndpoint config) (request config rawPrompt) ;;
     interpret response)
    classify.

(* ===================================================================== *)
(** ** Induction on values *)
(* ===================================================================== *)

(** Induction on values that reaches the elements of arrays and the
    property values of objects. *)
Fixpoint value_nested_ind (P : value -> Prop)
    (Hundefined : P VUndefined) (Hnull : P VNull)
    (Hbool : forall b, P (VBool b)) (Hnumber : forall n, P (VNumber n))
    (Hstring : forall s, P (VString s))
    (Harray : forall elements, Forall P elements -> P (VArray elements))
    (Hobject : forall props,
        Forall (fun kv => P (snd kv)) props -> P (VObject props))
    (v : value) {struct v} : P v :=
  let rec := value_nested_ind P Hundefined Hnull Hbool Hnumber Hstring
               Harray Hobject in
  match v with
  | VUndefined => Hundefined
  | VNull => Hnull
  | VBool b => Hbool b
  | VNumber n => Hnumber n
  | VString s => Hstring s
  | VArray elements =>
      Harray elements
        ((fix all (l : list value) : Forall P l :=
            match l with
            | [] => Forall_nil P
            | x :: rest => Forall_cons x (rec x) (all rest)
            end) elements)
  | VObject props =>
      Hobject props
        ((fix all (l : list (jsstring * value))
            : Forall (fun kv => P (snd kv)) l :=
            match l with
            | [] => Forall_nil _
            | kv :: rest => Forall_cons kv (rec (snd kv)) (all rest)
            end) props)
  end.

(** The only exception ToString raises on these values is the failed
    conversion of an object to a primitive. *)

(* ===================================================================== *)
(** ** Vocabulary of the statements *)
(* ===================================================================== *)

(** The one call [refactorPrompt] makes on the transport. *)
Definition the_call (settings : WorkspaceConfiguration) (rawPrompt : jsstring)
  : FetchCall :=
  {| url := apiEndpoint (getConfig settings);
     init := request (getConfig settings) rawPrompt |}.

(** What the [catch] clause turns the outcome of the [try] block into. *)
Definition caught (c : completion jsstring) : completion jsstring :=
  match c with
  | Throw e => snd (classify e [])
  | Normal s => Normal s
  end.

(** The rejection carrying [new LLMError(msg, c)]. *)
Definition fails (msg : jsstring) (c : LLMErrorCode) : completion jsstring :=
  Throw (ThrownLLMError {| message := msg; code := c |}).


(** The exceptions the [catch] clause takes for a failure to connect: a
    [TypeError] whose message mentions [fetch]. *)
Definition connection_failure (e : thrown) : Prop :=
  exists msg, e = ThrownError TypeError msg /\ contains msg (lit "fetch").

(** The exception [e] is raised inside the [try] block by something that is
    not a [throw] of the service itself: by [fetch], by [response.text()] on
    the path of the other HTTP errors, or by [response.json()]. *)
Inductive raises (net : Transport) (call : FetchCall) (e : thrown) : Prop :=
| raised_by_fetch :
    net call = Throw e ->
    raises net call e
| raised_by_text (response : Response) :
    net call = Normal response ->
    (status response < 200 \/ 299 < status response)%Z ->
    status response <> 429%Z ->
    status response <> 401%Z ->
    text response = Throw e ->
    raises net call e
| raised_by_json (response : Response) :
    net call = Normal response ->
    ok response = true ->
    json response = Throw e ->
    raises net call e.

(** A link of the path [choices[0].message.content] is absent: the member
    or the element is missing, or it is [null]. *)
Definition absent (link : option value) : Prop :=
  link = None \/ link = Some VNull.

(** What a body [{...members}] of the response shape holds at
    [choices[0].message.content]: [Some s] when [choices] is an array whose
    first element is an object whose [message] is an object whose [content]
    is the string [s]; [None] when a link of that path is absent. *)
Inductive content_at_path (members : list (jsstring * value))
  : option jsstring -> Prop :=
| no_choices :
    absent (own_property members (lit "choices")) ->
    content_at_path members None
| no_first_choice (elements : list value) :
    own_property members (lit "choices") = Some (VArray elements) ->
    absent (hd_error elements) ->
    content_at_path members None
| no_message (elements : list value) (choice : list (jsstring * value)) :
    own_property members (lit "choices") = Some (VArray elements) ->
    hd_error elements = Some (VObject choice) ->
    absent (own_property choice (lit "message")) ->
    content_at_path members None
| no_content (elements : list value) (choice msg : list (jsstring * value)) :
    own_property members (lit "choices") = Some (VArray elements) ->
    hd_error elements = Some (VObject choice) ->
    own_property choice (lit "message") = Some (VObject msg) ->
    absent (own_property msg (lit "content")) ->
    content_at_path members None
| string_content (elements : list value) (choice msg : list (jsstring * value))
    (s : jsstring) :
    own_property members (lit "choices") = Some (VArray elements) ->
    hd_error elements = Some (VObject choice) ->
    own_property choice (lit "message") = Some (VObject msg) ->
    own_property msg (lit "content") = Some (VString s) ->
    content_at_path members (Some s).

(** One member of a serialized object: the quoted key, a colon, the text of
    the value. *)
Definition member (key : string) (text : jsstring) : jsstring :=
  QuoteJSONString (lit key) ++ lit ":" ++ text.

(** The JSON text of the request body: an object with the members [model],
    [messages] (an array of the system message and the user message),
    [max_tokens] and [temperature], strings written by [QuoteJSONString]. *)
Definition wire_body (config : LLMConfig) (rawPrompt : jsstring) : jsstring :=
  lit "{"
  ++ join (lit ",")
       [ member "model" (QuoteJSONString (model config));
         member "messages"
           (lit "["
            ++ join (lit ",")
                 [ lit "{"
                   ++ join (lit ",")
                        [ member "role" (QuoteJSONString (lit "system"));
                          member "content" (QuoteJSONString SYSTEM_PROMPT) ]
                   ++ lit "}";
                   lit "{"
                   ++ join (lit ",")
                        [ member "role" (QuoteJSONString (lit "user"));
                          member "content" (QuoteJSONString rawPrompt) ]
                   ++ lit "}" ]
            ++ lit "]");
         member "max_tokens"
           (if is_finite (maxTokens config)
            then Number_toString (maxTokens config)
            else lit "null");
         member "temperature" (lit "0.7") ]
  ++ lit "}".

(** *** Concrete inputs *)

Definition example_settings : WorkspaceConfiguration :=
  {| setting_apiKey := Some (lit "sk-test");
     setting_apiEndpoint := None;
     setting_model := None;
     setting_maxTokens := None |}.

Definition blank_settings : WorkspaceConfiguration :=
  {| setting_apiKey := Some [32; 9; 160]%N;
     setting_apiEndpoint := None;
     setting_model := None;
     setting_maxTokens := None |}.

(** A transport that answers every call with [response]. *)
Definition answering (response : Response) : Transport :=
  fun _ => Normal response.

(** A transport that fails every call with [e]. *)
Definition failing (e : thrown) : Transport :=
  fun _ => Throw e.

(** The thrown value [Object.create(null)]: no [Error], and [String] throws
    on it. *)
Definition null_prototype_object : thrown := ThrownUnprintable cannot_convert.

Definition not_json : thrown :=
  ThrownError SyntaxError (lit "Unexpected token s in JSON at position 0").

(** A response with the given status, [retry-after] header and body text;
    the body is no JSON. *)
Definition text_response (code : Z) (retryAfter : option jsstring)
    (bodyText : jsstring) : Response :=
  {| status := code;
     headers_get := fun name =>
       if jsstring_eqb name (lit "retry-after") then retryAfter else None;
     text := Normal bodyText;
     json := Throw not_json |}.

(** A response with the given status and parsed JSON body. *)
Definition json_response (code : Z) (data : value) : Response :=
  {| status := code;
     headers_get := fun _ => None;
     text := Normal [];
     json := Normal data |}.

(** The body [{"choices":[{"message":{"content": content}}]}]. *)
Definition completion_of (content : value) : value :=
  VObject
    [ (lit "choices",
       VArray [ VObject [ (lit "message",
                           VObject [ (lit "content", content) ]) ] ]) ].

(** The body [{"error":{"message": msg, "type": "server_error"}}]. *)
Definition error_envelope (msg : jsstring) : value :=
  VObject
    [ (lit "error",
       VObject [ (lit "message", VString msg);
                 (lit "type", VString (lit "server_error")) ]) ].

Definition example_prompt : jsstring := lit "write me a poem about the sea".

Definition other_settings : WorkspaceConfiguration :=
  {| setting_apiKey := Some (lit "another key");
     setting_apiEndpoint := Some (lit "https://llm.example/v1/chat");
     setting_model := Some (lit "gpt-4o");
     setting_maxTokens := Some (number_of_Z 64) |}.

(** Status 503, no header at all, the body text "busy". *)
Definition busy_response : Response :=
  {| status := 503;
     headers_get := fun _ => None;
     text := Normal (lit "busy");
     json := Throw not_json |}.

(** An error envelope next to a usable completion. *)
Definition error_next_to_content : value :=
  VObject
    [ (lit "choices",
       VArray [ VObject [ (lit "message",
                           VObject [ (lit "content", VString (lit "fine")) ]) ] ]);
      (lit "error",
       VObject [ (lit "message", VString (lit "quota exceeded")) ]) ].

Ltac break_if :=
  match goal with
  | |- context [if ?b then _ else _] => destruct b eqn:?
  | |- context [match ?c with Throw _ => _ | Normal _ => _ end] => destruct c eqn:?
  end.

(* ===================================================================== *)
(** ** The editor host *)
(* ===================================================================== *)

(** What the extension posts to the webview, by [command]: [loading] with
    [isLoading], [result] with [text], [error] with [message] and, when
    [showSettings] is [true], that property (it is left out otherwise). *)
Inductive ExtensionMessage : Type :=
| LoadingMessage (isLoading : bool)
| ResultMessage (refactored : jsstring)
| ErrorMessage (msg : jsstring) (showSettings : bool).

(** What the webview posts to the extension:
    [{ command: string; text?: string }]. *)
Record WebviewMessage : Type := mkWebviewMessage {
  command : jsstring;
  message_text : option jsstring
}.

(** A selection of the editor: anchor and active position, each a line and
    a character. *)
Record Selection : Type := mkSelection {
  anchor : nat * nat;
  active : nat * nat
}.

(** [vscode.TextEditor], as far as the commands use it. *)
Record TextEditor : Type := mkTextEditor {
  selection : Selection;
  document_getText : Selection -> jsstring
}.

(** The calls the extension makes on its host, in the order it makes them.
    A dialog carries its message and its items; a text document is known by
    the content and language it was opened with. *)
Inductive HostCall : Type :=
| PostMessage (m : ExtensionMessage)
| ShowInformationMessage (msg : jsstring) (items : list jsstring)
| ShowWarningMessage (msg : jsstring) (modal : bool) (items : list jsstring)
| ShowErrorMessage (msg : jsstring) (items : list jsstring)
| ClipboardWriteText (content : jsstring)
| OpenTextDocument (content language : jsstring)
| ShowTextDocument (content language : jsstring) (preview : option bool)
| ExecuteCommand (name argument : jsstring)
| EditReplace (range : Selection) (newText : jsstring)
| WithProgress (title : jsstring)
| Fetch (call : FetchCall).

(** The host and its user: how the promise of a call settles, given the
    calls made before it.  A dialog resolves to the item chosen or to
    [undefined] ([None]); the other calls resolve to nothing the extension
    looks at; any of them may reject. *)
Definition Host : Type := list HostCall -> HostCall -> completion (option jsstring).

(** A computation of the extension: it extends the trace of host calls and
    settles to a value or to a rejection. *)
Definition ui (A : Type) : Type :=
  list HostCall -> list HostCall * completion A.

Definition ui_return {A} (a : A) : ui A := fun trace => (trace, Normal a).

Definition ui_bind {A B} (c : ui A) (k : A -> ui B) : ui B :=
  fun trace =>
    match c trace with
    | (trace', Normal a) => k a trace'
    | (trace', Throw e) => (trace', Throw e)
    end.

Notation "x <~ c ;; k" := (ui_bind c (fun x => k))
  (at level 61, c at next level, right associativity).

(** [await call]: the call is made and its promise awaited. *)
Definition awaited (host : Host) (call : HostCall) : ui (option jsstring) :=
  fun trace => (trace ++ [call], host trace call).

(** A call whose promise is dropped: the call is made, what it settles to
    is not looked at.  (The functions of the editor API answer with a
    promise; they do not throw.) *)
Definition unawaited (call : HostCall) : ui unit :=
  fun trace => (trace ++ [call], Normal tt).

(** An [async] function called without [await]: its calls are made, its
    rejection is dropped.  Where the source does this the caller makes no
    further call, so the order of the trace is that of the calls. *)
Definition detached (c : ui unit) : ui unit :=
  fun trace => (fst (c trace), Normal tt).

(** [try { body } catch (error) { handler }] *)
Definition ui_try_catch {A} (body : ui A) (handler : thrown -> ui A) : ui A :=
  fun trace =>
    match body trace with
    | (trace', Throw e) => handler e trace'
    | settled => settled
    end.

(** [try { body } finally { finalizer }]: the finalizer runs however the
    body ends; a rejection of the body is passed on after it. *)
Definition ui_finally {A} (body : ui A) (finalizer : ui unit) : ui A :=
  fun trace =>
    match body trace with
    | (trace', outcome) =>
        match finalizer trace' with
        | (trace'', Normal _) => (trace'', outcome)
        | (trace'', Throw e) => (trace'', Throw e)
        end
    end.

(** [await llmService.refactorPrompt(...)]: the calls on the transport
    enter the trace. *)
Definition service {A} (c : async A) : ui A :=
  fun trace =>
    match c [] with
    | (calls, outcome) => (trace ++ map Fetch calls, outcome)
    end.

(** [a === b] for an optional string and a string literal. *)
Definition is_item (answer : option jsstring) (item : string) : bool :=
  match answer with
  | Some s => jsstring_eqb s (lit item)
  | None => false
  end.

(** What the extension is run with: the settings, the network, the host
    and [vscode.window.activeTextEditor]. *)
Record Environment : Type := mkEnvironment {
  env_settings : WorkspaceConfiguration;
  env_net : Transport;
  env_host : Host;
  activeTextEditor : option TextEditor
}.

(* ===================================================================== *)
(** ** PromptLintPanel *)
(* ===================================================================== *)

Definition enter_a_prompt_message : jsstring :=
  lit "Please enter a prompt to refactor.".

Definition unexpected_error_message : jsstring :=
  lit "An unexpected error occurred.".

(** [PromptLintPanel.handleRefactor] *)
Definition handleRefactor (env : Environment) (rawPrompt : jsstring) : ui unit :=
  if negb (truthy (VString (trim rawPrompt))) then
    unawaited (PostMessage (ErrorMessage enter_a_prompt_message false))
  else
    (* Send loading state *)
    _ <~ unawaited (PostMessage (LoadingMessage true)) ;;
    ui_finally
      (ui_try_catch
         (refactoredPrompt <~
            service (refactorPrompt (env_settings env) (env_net env) rawPrompt) ;;
          unawaited (PostMessage (ResultMessage refactoredPrompt)))
         (fun error =>
            match error with
            | ThrownLLMError e =>
                let errorMessage := message e in
                (* Offer to open settings if API key is missing *)
                match code e with
                | NO_API_KEY =>
                    unawaited (PostMessage (ErrorMessage errorMessage true))
                | _ => unawaited (PostMessage (ErrorMessage errorMessage false))
                end
            | _ =>
                unawaited (PostMessage (ErrorMessage unexpected_error_message false))
            end))
      (unawaited (PostMessage (LoadingMessage false))).

(** [message.text || ''] *)
Definition text_or_empty (text : option jsstring) : jsstring :=
  match text with
  | Some s => s
  | None => []
  end.

(** [if (message.text)] *)
Definition has_text (text : option jsstring) : bool :=
  truthy (match text with Some s => VString s | None => VUndefined end).

(** [PromptLintPanel.handleMessage] *)
Definition handleMessage (env : Environment) (m : WebviewMessage) : ui unit :=
  if jsstring_eqb (command m) (lit "refactor") then
    handleRefactor env (text_or_empty (message_text m))
  else if jsstring_eqb (command m) (lit "copyToClipboard") then
    if has_text (message_text m) then
      _ <~ awaited (env_host env)
             (ClipboardWriteText (text_or_empty (message_text m))) ;;
      unawaited (ShowInformationMessage
                   (lit "Refactored prompt copied to clipboard!") [])
    else ui_return tt
  else if jsstring_eqb (command m) (lit "openInEditor") then
    if has_text (message_text m) then
      _ <~ awaited (env_host env)
             (OpenTextDocument (text_or_empty (message_text m)) (lit "markdown")) ;;
      _ <~ awaited (env_host env)
             (ShowTextDocument (text_or_empty (message_text m)) (lit "markdown")
                None) ;;
      ui_return tt
    else ui_return tt
  else if jsstring_eqb (command m) (lit "openSettings") then
    _ <~ awaited (env_host env)
           (ExecuteCommand (lit "workbench.action.openSettings") (lit "promptlint")) ;;
    ui_return tt
  else ui_return tt.

(* ===================================================================== *)
(** ** The commands of the extension *)
(* ===================================================================== *)

(** [copyToClipboard] *)
Definition copyToClipboard (host : Host) (content : jsstring) : ui unit :=
  _ <~ awaited host (ClipboardWriteText content) ;;
  unawaited (ShowInformationMessage
               (lit "Refactored prompt copied to clipboard!") []).

(** [openInNewTab] *)
Definition openInNewTab (host : Host) (content : jsstring) : ui unit :=
  _ <~ awaited host (OpenTextDocument content (lit "markdown")) ;;
  _ <~ awaited host (ShowTextDocument content (lit "markdown") (Some false)) ;;
  ui_return tt.

(** [replaceSelection] *)
Definition replaceSelection (host : Host) (editor : TextEditor)
    (range : Selection) (newText : jsstring) : ui unit :=
  (* Confirm before replacing *)
  confirm <~ awaited host
               (ShowWarningMessage
                  (lit "This will replace your selected text. Continue?")
                  true [lit "Yes, Replace"]) ;;
  if is_item confirm "Yes, Replace" then
    _ <~ awaited host (EditReplace range newText) ;;
    unawaited (ShowInformationMessage (lit "Prompt replaced successfully!") [])
  else ui_return tt.

(** [showRefactoredPrompt] *)
Definition showRefactoredPrompt (host : Host) (editor : TextEditor)
    (range : Selection) (refactoredPrompt : jsstring) : ui unit :=
  (* Ask user how they want to use the refactored prompt *)
  choice <~ awaited host
              (ShowInformationMessage
                 (lit "Prompt refactored successfully! What would you like to do?")
                 [ lit "Replace Selection"; lit "Open in New Tab";
                   lit "Copy to Clipboard" ]) ;;
  if is_item choice "Replace Selection" then
    replaceSelection host editor range refactoredPrompt
  else if is_item choice "Open in New Tab" then
    openInNewTab host refactoredPrompt
  else if is_item choice "Copy to Clipboard" then
    copyToClipboard host refactoredPrompt
  (* User dismissed the dialog - do nothing *)
  else ui_return tt.

(** [showApiKeyError] *)
Definition showApiKeyError (host : Host) (msg : jsstring) : ui unit :=
  action <~ awaited host
              (ShowErrorMessage (lit "PromptLint: " ++ msg) [lit "Open Settings"]) ;;
  if is_item action "Open Settings" then
    _ <~ awaited host
           (ExecuteCommand (lit "workbench.action.openSettings")
              (lit "promptlint.apiKey")) ;;
    ui_return tt
  else ui_return tt.

(** [handleError] *)
Definition handleError (host : Host) (error : thrown) : ui unit :=
  match error with
  | ThrownLLMError e =>
      match code e with
      | NO_API_KEY => detached (showApiKeyError host (message e))
      | RATE_LIMIT =>
          unawaited (ShowWarningMessage (lit "PromptLint: " ++ message e) false [])
      | _ =>
          unawaited (ShowErrorMessage (lit "PromptLint: " ++ message e) [])
      end
  | ThrownError _ msg =>
      unawaited (ShowErrorMessage
                   (lit "PromptLint: An unexpected error occurred. " ++ msg) [])
  | ThrownValue _ | ThrownUnprintable _ =>
      unawaited (ShowErrorMessage
                   (lit "PromptLint: An unexpected error occurred. ") [])
  end.

(** [handleRefactorSelectedPrompt] *)
Definition handleRefactorSelectedPrompt (env : Environment) : ui unit :=
  match activeTextEditor env with
  | None =>
      unawaited (ShowWarningMessage
                   (lit "No active editor found. Please open a file first.")
                   false [])
  | Some editor =>
      let range := selection editor in
      let selectedText := document_getText editor range in
      if negb (truthy (VString selectedText))
         || jsstring_eqb (trim selectedText) [] then
        unawaited (ShowWarningMessage
                     (lit "Please select some text to refactor.") false [])
      else
        (* Show progress indicator while refactoring *)
        _ <~ unawaited (WithProgress (lit "PromptLint: Refactoring prompt...")) ;;
        ui_try_catch
          (refactoredPrompt <~
             service (refactorPrompt (env_settings env) (env_net env)
                        selectedText) ;;
           showRefactoredPrompt (env_host env) editor range refactoredPrompt)
          (handleError (env_host env))
  end.

(* ===================================================================== *)
(** ** The script of the webview *)
(* ===================================================================== *)

(** The part of the page the script reads and writes: the value of the
    input, the variable [currentOutput], whether the loading indicator, the
    error container and the output section carry the class [hidden],
    whether the refactor button is disabled, the HTML last assigned to the
    error container and the text of the output area. *)
Record WebviewState : Type := mkWebviewState {
  inputPrompt_value : jsstring;
  currentOutput : jsstring;
  loadingIndicator_hidden : bool;
  refactorBtn_disabled : bool;
  errorContainer_hidden : bool;
  errorContainer_innerHTML : jsstring;
  outputSection_hidden : bool;
  outputArea_textContent : jsstring
}.

(** The page as [getHtmlContent] builds it. *)
Definition initial_webview : WebviewState :=
  {| inputPrompt_value := [];
     currentOutput := [];
     loadingIndicator_hidden := true;
     refactorBtn_disabled := false;
     errorContainer_hidden := true;
     errorContainer_innerHTML := [];
     outputSection_hidden := true;
     outputArea_textContent := [] |}.

(** The user edits the input. *)
Definition type_input (w : WebviewState) (value : jsstring) : WebviewState :=
  {| inputPrompt_value := value;
     currentOutput := currentOutput w;
     loadingIndicator_hidden := loadingIndicator_hidden w;
     refactorBtn_disabled := refactorBtn_disabled w;
     errorContainer_hidden := errorContainer_hidden w;
     errorContainer_innerHTML := errorContainer_innerHTML w;
     outputSection_hidden := outputSection_hidden w;
     outputArea_textContent := outputArea_textContent w |}.

(** The [click] listener of [refactorBtn]; the second component lists what
    it posts to the extension. *)
Definition refactorBtn_click (w : WebviewState)
  : WebviewState * list WebviewMessage :=
  let text := trim (inputPrompt_value w) in
  if truthy (VString text) then
    (w, [ {| command := lit "refactor"; message_text := Some text |} ])
  else (w, []).

(** The [click] listener of [clearBtn]. *)
Definition clearBtn_click (w : WebviewState)
  : WebviewState * list WebviewMessage :=
  ({| inputPrompt_value := [];
      currentOutput := [];
      loadingIndicator_hidden := loadingIndicator_hidden w;
      refactorBtn_disabled := refactorBtn_disabled w;
      errorContainer_hidden := true;
      errorContainer_innerHTML := errorContainer_innerHTML w;
      outputSection_hidden := true;
      outputArea_textContent := outputArea_textContent w |},
   []).

(** The [click] listener of [copyBtn]. *)
Definition copyBtn_click (w : WebviewState)
  : WebviewState * list WebviewMessage :=
  if truthy (VString (currentOutput w)) then
    (w, [ {| command := lit "copyToClipboard";
             message_text := Some (currentOutput w) |} ])
  else (w, []).

(** The [click] listener of [openEditorBtn]. *)
Definition openEditorBtn_click (w : WebviewState)
  : WebviewState * list WebviewMessage :=
  if truthy (VString (currentOutput w)) then
    (w, [ {| command := lit "openInEditor";
             message_text := Some (currentOutput w) |} ])
  else (w, []).

(** A click on the refactor button, by the user or by [refactorBtn.click()]:
    a disabled button dispatches no [click]. *)
Definition click_refactorBtn (w : WebviewState)
  : WebviewState * list WebviewMessage :=
  if refactorBtn_disabled w then (w, []) else refactorBtn_click w.

(** What the [keydown] listener reads of the event. *)
Record KeyboardEvent : Type := mkKeyboardEvent {
  ctrlKey : bool;
  metaKey : bool;
  key : jsstring
}.

(** The [keydown] listener of [inputPrompt]: Ctrl/Cmd + Enter to refactor. *)
Definition inputPrompt_keydown (w : WebviewState) (e : KeyboardEvent)
  : WebviewState * list WebviewMessage :=
  if (ctrlKey e || metaKey e) && jsstring_eqb (key e) (lit "Enter") then
    click_refactorBtn w
  else (w, []).

(** [' <button class="link-button" onclick="openSettings()">Open Settings</button>'] *)
Definition open_settings_button : jsstring :=
  lit " <button class=" ++ [quotation_mark] ++ lit "link-button"
    ++ [quotation_mark] ++ lit " onclick=" ++ [quotation_mark]
    ++ lit "openSettings()" ++ [quotation_mark]
    ++ lit ">Open Settings</button>".

(** The [message] listener of [window]: handle messages from the extension. *)
Definition window_message (w : WebviewState) (m : ExtensionMessage)
  : WebviewState :=
  match m with
  | LoadingMessage isLoading =>
      if isLoading then
        {| inputPrompt_value := inputPrompt_value w;
           currentOutput := currentOutput w;
           loadingIndicator_hidden := false;
           refactorBtn_disabled := true;
           errorContainer_hidden := true;
           errorContainer_innerHTML := errorContainer_innerHTML w;
           outputSection_hidden := outputSection_hidden w;
           outputArea_textContent := outputArea_textContent w |}
      else
        {| inputPrompt_value := inputPrompt_value w;
           currentOutput := currentOutput w;
           loadingIndicator_hidden := true;
           refactorBtn_disabled := false;
           errorContainer_hidden := errorContainer_hidden w;
           errorContainer_innerHTML := errorContainer_innerHTML w;
           outputSection_hidden := outputSection_hidden w;
           outputArea_textContent := outputArea_textContent w |}
  | ResultMessage refactored =>
      {| inputPrompt_value := inputPrompt_value w;
         currentOutput := refactored;
         loadingIndicator_hidden := loadingIndicator_hidden w;
         refactorBtn_disabled := refactorBtn_disabled w;
         errorContainer_hidden := true;
         errorContainer_innerHTML := errorContainer_innerHTML w;
         outputSection_hidden := false;
         outputArea_textContent := refactored |}
  | ErrorMessage msg showSettings =>
      let errorHtml :=
        if showSettings then msg ++ open_settings_button else msg in
      {| inputPrompt_value := inputPrompt_value w;
         currentOutput := currentOutput w;
         loadingIndicator_hidden := loadingIndicator_hidden w;
         refactorBtn_disabled := refactorBtn_disabled w;
         errorContainer_hidden := false;
         errorContainer_innerHTML := errorHtml;
         outputSection_hidden := true;
         outputArea_textContent := outputArea_textContent w |}
  end.

(** The function [openSettings] of the page. *)
Definition openSettings : list WebviewMessage :=
  [ {| command := lit "openSettings"; message_text := None |} ].

(* ===================================================================== *)
(** ** The panel and its webview together *)
(* ===================================================================== *)

(** The messages for the webview among the calls of a trace, in order. *)
Fixpoint posted (trace : list HostCall) : list ExtensionMessage :=
  match trace with
  | [] => []
  | PostMessage m :: rest => m :: posted rest
  | _ :: rest => posted rest
  end.

(** The webview receives messages one after the other. *)
Definition deliver (w : WebviewState) (messages : list ExtensionMessage)
  : WebviewState :=
  fold_left window_message messages w.

(** The extension handles what a listener of the page has posted (the
    listeners post one message at most); a handler that rejects does not
    keep the next message from being handled. *)
Fixpoint handle_all (env : Environment) (messages : list WebviewMessage)
    (trace : list HostCall) : list HostCall :=
  match messages with
  | [] => trace
  | m :: rest => handle_all env rest (fst (handleMessage env m trace))
  end.

(** One exchange: a listener of the page has run and posted [messages];
    the extension handles them, and the page receives what the extension
    posts back.  The result is the page afterwards with the calls the
    extension made. *)
Definition exchange (env : Environment)
    (after_listener : WebviewState * list WebviewMessage)
  : WebviewState * list HostCall :=
  let trace := handle_all env (snd after_listener) [] in
  (deliver (fst after_listener) (posted trace), trace).

(* ===================================================================== *)
(** ** Vocabulary of the further properties *)
(* ===================================================================== *)

(** A thrown value that has a message or that [String] can convert. *)
Definition printable (e : thrown) : bool :=
  match e with
  | ThrownUnprintable _ => false
  | _ => true
  end.

(** An exception that the [catch] clause wraps as an unexpected error:
    neither an [LLMError] nor a [TypeError] that mentions [fetch], and one
    whose message the clause can read. *)
Definition wrapped (e : thrown) : Prop :=
  instanceof_LLMError e = false /\ is_fetch_TypeError e = false
  /\ printable e = true.

(** The promise of a dialog resolved to the item [item]. *)
Definition chose (answer : completion (option jsstring)) (item : string) : bool :=
  match answer with
  | Normal a => is_item a item
  | Throw _ => false
  end.

(** The dialog that offers what to do with the refactored prompt. *)
Definition refactored_dialog : HostCall :=
  ShowInformationMessage
    (lit "Prompt refactored successfully! What would you like to do?")
    [ lit "Replace Selection"; lit "Open in New Tab"; lit "Copy to Clipboard" ].

(** The modal dialog that confirms a replacement. *)
Definition confirm_dialog : HostCall :=
  ShowWarningMessage (lit "This will replace your selected text. Continue?")
    true [lit "Yes, Replace"].

(** The progress notification of the command. *)
Definition progress_notification : HostCall :=
  WithProgress (lit "PromptLint: Refactoring prompt...").

(** The dialog [handleError] opens for an [LLMError], by code. *)
Definition error_dialog (msg : jsstring) (c : LLMErrorCode) : HostCall :=
  match c with
  | NO_API_KEY => ShowErrorMessage (lit "PromptLint: " ++ msg) [lit "Open Settings"]
  | RATE_LIMIT => ShowWarningMessage (lit "PromptLint: " ++ msg) false []
  | _ => ShowErrorMessage (lit "PromptLint: " ++ msg) []
  end.

(** The text the command works on: the text of the selection of the active
    editor. *)
Definition selected_text (editor : TextEditor) : jsstring :=
  document_getText editor (selection editor).

(** The run of the service the command starts for an editor. *)
Definition command_run (env : Environment) (editor : TextEditor)
  : list FetchCall * completion jsstring :=
  refactorPrompt (env_settings env) (env_net env) (selected_text editor) [].

(** *** Concrete hosts, editors and pages *)

(** A user who dismisses every dialog. *)
Definition dismissing_host : Host := fun _ _ => Normal None.

(** A user who picks the first item of every dialog that has items:
    "Replace Selection", then "Yes, Replace"; "Open Settings". *)
Definition accepting_host : Host :=
  fun _ call =>
    match call with
    | ShowInformationMessage _ (item :: _) => Normal (Some item)
    | ShowWarningMessage _ _ (item :: _) => Normal (Some item)
    | ShowErrorMessage _ (item :: _) => Normal (Some item)
    | _ => Normal None
    end.

(** A user who picks "Copy to Clipboard". *)
Definition copying_host : Host :=
  fun _ call =>
    match call with
    | ShowInformationMessage _ (_ :: _) => Normal (Some (lit "Copy to Clipboard"))
    | _ => Normal None
    end.

(** A host whose clipboard refuses the write. *)
Definition clipboard_failure : thrown :=
  ThrownError OtherError (lit "clipboard unavailable").

Definition failing_clipboard_host : Host :=
  fun _ call =>
    match call with
    | ClipboardWriteText _ => Throw clipboard_failure
    | _ => Normal None
    end.

(** An editor whose selection reads "  write code for login ". *)
Definition example_editor : TextEditor :=
  {| selection := {| anchor := (3, 0); active := (3, 23) |};
     document_getText := fun _ => lit "  write code for login " |}.

(** An editor whose selection is one space and one line feed. *)
Definition blank_editor : TextEditor :=
  {| selection := {| anchor := (0, 0); active := (1, 0) |};
     document_getText := fun _ => [32; 10]%N |}.

(** A network that answers with the completion "  Improved text  ". *)
Definition improving_net : Transport :=
  answering (json_response 200 (completion_of (VString (lit "  Improved text  ")))).

(** A network that answers 500 with a body that holds markup. *)
Definition markup_body : jsstring := lit "<img src=x onerror=alert(1)>".

Definition exploding_net : Transport :=
  answering (text_response 500 None markup_body).

(** A network that answers with a completion of white space only. *)
Definition blank_completion_net : Transport :=
  answering (json_response 200 (completion_of (VString [32; 10; 32]%N))).

Definition example_env (host : Host) (net : Transport)
    (editor : option TextEditor) : Environment :=
  {| env_settings := example_settings;
     env_net := net;
     env_host := host;
     activeTextEditor := editor |}.

(** The page after "  write code for login " has been typed. *)
Definition typed_page : WebviewState :=
  type_input initial_webview (lit "  write code for login ").

(* ===================================================================== *)
(** * Properties *)
(* ===================================================================== *)

(** ** Strings *)

Section StringFacts.

Lemma jsstring_eqb_eq (a b : jsstring) : jsstring_eqb a b = true <-> a = b.
Proof.
  revert b; induction a as [|x a IH]; intros [|y b]; simpl; split;
    try congruence; try reflexivity.
  - intros H. apply andb_true_iff in H as [Hxy Hab].
    apply N.eqb_eq in Hxy. apply IH in Hab. congruence.
  - intros H. injection H as -> ->.
    apply andb_true_iff. split; [apply N.eqb_refl | now apply IH].
Qed.

Lemma jsstring_eqb_refl (a : jsstring) : jsstring_eqb a a = true.
Proof. now apply jsstring_eqb_eq. Qed.

Lemma jsstring_eqb_nil (s : jsstring) :
  jsstring_eqb s [] = match s with [] => true | _ :: _ => false end.
Proof. now destruct s. Qed.

Lemma startsWith_prefix (s p : jsstring) :
  startsWith s p = true <-> exists rest, s = p ++ rest.
Proof.
  revert s; induction p as [|x p IH]; intros s; simpl.
  - split; [intros _; now exists s | reflexivity].
  - destruct s as [|y s]; split.
    + discriminate.
    + intros [rest H]; discriminate.
    + intros H. apply andb_true_iff in H as [Hxy Hp].
      apply N.eqb_eq in Hxy. apply IH in Hp as [rest ->].
      exists rest. now rewrite Hxy.
    + intros [rest H]. injection H as -> ->.
      apply andb_true_iff. split; [apply N.eqb_refl |].
      apply IH. now exists rest.
Qed.

Lemma includes_contains (s p : jsstring) :
  includes s p = true <-> contains s p.
Proof.
  induction s as [|c s IH].
  - cbn [includes]. rewrite orb_false_r, startsWith_prefix. split.
    + intros [rest H]. now exists [], rest.
    + intros [b [a H]]. destruct b; [now exists a | discriminate].
  - cbn [includes]. rewrite orb_true_iff, startsWith_prefix, IH. split.
    + intros [[rest H] | [b [a H]]].
      * now exists [], rest.
      * exists (c :: b), a. now rewrite H.
    + intros [b [a H]]. destruct b as [|c' b].
      * left. now exists a.
      * right. injection H as _ H. now exists b, a.
Qed.

Lemma contains_middle (a p b : jsstring) : contains (a ++ p ++ b) p.
Proof. now exists a, b. Qed.

Lemma contains_app_r (a s p : jsstring) : contains s p -> contains (a ++ s) p.
Proof.
  intros [b [c ->]]. exists (a ++ b), c. now rewrite <- app_assoc.
Qed.

Lemma contains_suffix (a p : jsstring) : contains (a ++ p) p.
Proof. exists a, []. now rewrite app_nil_r. Qed.

Lemma trimStart_whitespace_only (s : jsstring) :
  whitespace_only s -> trimStart s = [].
Proof.
  induction 1 as [|c s Hc _ IH]; simpl; [reflexivity | now rewrite Hc].
Qed.

Lemma trimStart_nil (s : jsstring) : trimStart s = [] -> whitespace_only s.
Proof.
  induction s as [|c s IH]; simpl; intros H; [constructor |].
  destruct (is_white_space c) eqn:Hc; [| discriminate].
  constructor; [exact Hc | now apply IH].
Qed.

Lemma trim_whitespace_only (s : jsstring) : whitespace_only s -> trim s = [].
Proof.
  intros H. unfold trim, trimEnd.
  now rewrite (trimStart_whitespace_only s H).
Qed.

Lemma trimStart_head (s : jsstring) (c : code_unit) (t : jsstring) :
  trimStart s = c :: t -> is_white_space c = false.
Proof.
  induction s as [|d s IH]; simpl; intros E; [discriminate |].
  destruct (is_white_space d) eqn:Hd; [auto |].
  injection E as -> _. exact Hd.
Qed.

Lemma trim_nil (s : jsstring) : trim s = [] -> whitespace_only s.
Proof.
  unfold trim, trimEnd. intros H.
  apply (f_equal (@rev code_unit)) in H. rewrite rev_involutive in H.
  simpl in H. apply trimStart_nil in H.
  apply Forall_rev in H. rewrite rev_involutive in H.
  apply trimStart_nil.
  destruct (trimStart s) as [|c t] eqn:E; [reflexivity |].
  apply trimStart_head in E. inversion H; congruence.
Qed.

Lemma trim_nil_iff (s : jsstring) : trim s = [] <-> whitespace_only s.
Proof. split; [apply trim_nil | apply trim_whitespace_only]. Qed.

End StringFacts.

(** ** JSON string literals *)

Section JsonStrings.

Lemma hex_value_hex_digit (n : N) : (n < 16)%N -> hex_value (hex_digit n) = Some n.
Proof.
  intros H. unfold hex_value, hex_digit.
  destruct (N.ltb_spec n 10).
  - replace ((48 <=? 48 + n) && (48 + n <=? 57))%N with true.
    + f_equal. lia.
    + symmetry. apply andb_true_iff. split; apply N.leb_le; lia.
  - replace ((48 <=? 87 + n) && (87 + n <=? 57))%N with false.
    + replace ((97 <=? 87 + n) && (87 + n <=? 102))%N with true.
      * f_equal. lia.
      * symmetry. apply andb_true_iff. split; apply N.leb_le; lia.
    + symmetry. apply andb_false_iff. right. apply N.leb_gt. lia.
Qed.

Lemma unquote_UnicodeEscape (c : code_unit) (tail : jsstring) :
  (c < 65536)%N ->
  unquote_code_units (UnicodeEscape c ++ tail)
  = option_map (cons c) (unquote_code_units tail).
Proof.
  intros H. unfold UnicodeEscape. cbn [app unquote_code_units].
  change (reverse_solidus =? 92)%N with true. cbv iota.
  change (117 =? 117)%N with true. cbv iota.
  rewrite !hex_value_hex_digit by (apply N.mod_lt; discriminate).
  replace (4096 * ((c / 4096) mod 16) + 256 * ((c / 256) mod 16)
           + 16 * ((c / 16) mod 16) + c mod 16)%N with c
    by (zify; Z.to_euclidean_division_equations; lia).
  destruct (unquote_code_units tail); reflexivity.
Qed.

Lemma unquote_plain (c : code_unit) (tail : jsstring) :
  c <> 92%N -> c <> 34%N -> (32 <= c)%N ->
  unquote_code_units (c :: tail) = option_map (cons c) (unquote_code_units tail).
Proof.
  intros H92 H34 H32. cbn [unquote_code_units].
  rewrite (proj2 (N.eqb_neq _ _) H92), (proj2 (N.eqb_neq _ _) H34).
  now rewrite (proj2 (N.ltb_ge _ _) H32).
Qed.

Lemma unquote_quote_code_unit (c : code_unit) (tail : jsstring) :
  unquote_code_units (quote_code_unit c ++ tail)
  = option_map (cons c) (unquote_code_units tail).
Proof.
  unfold quote_code_unit.
  repeat match goal with
         | |- context [(c =? ?k)%N] =>
             destruct (N.eqb_spec c k);
             [subst c; cbn; destruct (unquote_code_units tail); reflexivity |]
         end.
  destruct (N.ltb_spec c 32).
  - apply unquote_UnicodeEscape. lia.
  - now apply unquote_plain.
Qed.

Lemma surrogate_plain (c : code_unit) (tail : jsstring) :
  is_leading_surrogate c = true \/ is_trailing_surrogate c = true ->
  unquote_code_units (c :: tail) = option_map (cons c) (unquote_code_units tail)
  /\ (c < 65536)%N.
Proof.
  unfold is_leading_surrogate, is_trailing_surrogate.
  intros H.
  assert (Hc : (55296 <= c <= 57343)%N).
  { destruct H as [H | H]; apply andb_true_iff in H as [H1 H2];
      apply N.leb_le in H1, H2; lia. }
  split; [apply unquote_plain |]; lia.
Qed.

Lemma unquote_quote_bounded (n : nat) (s : jsstring) :
  List.length s <= n -> unquote_code_units (quote_code_units s) = Some s.
Proof.
  revert s. induction n as [|n IH]; intros [|c rest] Hlen; simpl in Hlen;
    try reflexivity; try lia.
  cbn [quote_code_units].
  destruct (is_leading_surrogate c) eqn:Hlead.
  - destruct (surrogate_plain c [] (or_introl Hlead)) as [_ Hc].
    destruct rest as [|d rest'].
    + rewrite <- (app_nil_r (UnicodeEscape c)).
      now rewrite unquote_UnicodeEscape.
    + destruct (is_trailing_surrogate d) eqn:Htrail.
      * rewrite (proj1 (surrogate_plain c _ (or_introl Hlead))).
        rewrite (proj1 (surrogate_plain d _ (or_intror Htrail))).
        rewrite IH by (simpl in Hlen; lia). reflexivity.
      * rewrite unquote_UnicodeEscape by exact Hc.
        rewrite IH by lia. reflexivity.
  - destruct (is_trailing_surrogate c) eqn:Htrail.
    + destruct (surrogate_plain c [] (or_intror Htrail)) as [_ Hc].
      rewrite unquote_UnicodeEscape by exact Hc.
      rewrite IH by lia. reflexivity.
    + rewrite unquote_quote_code_unit, IH by lia. reflexivity.
Qed.

Lemma read_QuoteJSONString (s : jsstring) :
  read_JSON_string (QuoteJSONString s) = Some s.
Proof.
  unfold read_JSON_string, QuoteJSONString.
  rewrite rev_app_distr. cbn [rev app].
  change ((quotation_mark =? 34) && (quotation_mark =? 34))%N with true.
  cbv iota. rewrite rev_involutive.
  now apply (unquote_quote_bounded (List.length s)).
Qed.

End JsonStrings.

(** ** Values *)

Lemma join_elements_throws (toString : value -> completion jsstring)
    (l : list value) (e : thrown) :
  Forall (fun x => forall e', toString x = Throw e' -> e' = cannot_convert) l ->
  join_elements toString l = Throw e -> e = cannot_convert.
Proof.
  intros Hall. revert e.
  induction Hall as [|x rest Hx _ IH]; intros e; cbn [join_elements];
    [discriminate |].
  destruct (element_text toString x) as [e' | first] eqn:Ex; cbn [completion_bind].
  - intros H. injection H as <-. apply Hx.
    destruct x; cbn [element_text] in Ex; try discriminate; exact Ex.
  - destruct rest as [|y rest]; [discriminate |].
    destruct (join_elements toString (y :: rest)) as [e' | others];
      cbn [completion_bind]; [| discriminate].
    intros H. injection H as <-. now apply IH.
Qed.

(** The only exception ToString raises on these values is the failed
    conversion of an object to a primitive. *)
Lemma ToString_throws (v : value) (e : thrown) :
  ToString v = Throw e -> e = cannot_convert.
Proof.
  revert e. induction v as [| | b | n | s | elements IH | props _]
    using value_nested_ind; intros e; try discriminate.
  - cbn [ToString]. now apply join_elements_throws.
  - cbn [ToString]. destruct (own_property props (lit "toString")).
    + intros H. now injection H as <-.
    + discriminate.
Qed.

(** ** The shape of a run *)

Section Runs.

Lemma validateApiKey_blank (key : jsstring) :
  whitespace_only key ->
  validateApiKey key
  = Throw (ThrownLLMError {| message := no_api_key_message; code := NO_API_KEY |}).
Proof.
  intros H. unfold validateApiKey.
  rewrite (trim_whitespace_only key H), orb_true_r. reflexivity.
Qed.

Lemma validateApiKey_set (key : jsstring) :
  trim key <> [] -> validateApiKey key = Normal tt.
Proof.
  intros H. unfold validateApiKey. simpl truthy.
  destruct key as [|c key]; [now elim H |].
  simpl jsstring_eqb at 1. simpl negb.
  destruct (trim (c :: key)); [now elim H | reflexivity].
Qed.

Lemma classify_pure (error : thrown) (log : list FetchCall) :
  classify error log = (log, snd (classify error [])).
Proof.
  unfold classify, throw_LLMError, reject, async_bind, evaluate.
  repeat break_if; reflexivity.
Qed.

Lemma interpret_pure (response : Response) (log : list FetchCall) :
  interpret response log = (log, snd (interpret response [])).
Proof.
  unfold interpret, throw_LLMError, reject, await, evaluate, async_bind.
  repeat (break_if; try reflexivity).
Qed.

Lemma caught_fails (msg : jsstring) (c : LLMErrorCode) :
  caught (fails msg c) = fails msg c.
Proof. reflexivity. Qed.

(** With a key configured, a run makes exactly one call and settles to what
    the [catch] clause makes of the transport's answer. *)
Lemma refactorPrompt_run settings net rawPrompt log :
  trim (apiKey (getConfig settings)) <> [] ->
  refactorPrompt settings net rawPrompt log
  = (log ++ [the_call settings rawPrompt],
     match net (the_call settings rawPrompt) with
     | Throw e => caught (Throw e)
     | Normal response => caught (snd (interpret response []))
     end).
Proof.
  intros Hkey. unfold refactorPrompt, async_bind at 1, evaluate.
  rewrite (validateApiKey_set _ Hkey).
  unfold try_catch, async_bind, fetch. fold (the_call settings rawPrompt).
  destruct (net (the_call settings rawPrompt)) as [e | response].
  - rewrite classify_pure. reflexivity.
  - rewrite interpret_pure.
    destruct (snd (interpret response [])) as [e | s]; [| reflexivity].
    rewrite classify_pure. reflexivity.
Qed.

Lemma refactorPrompt_answered settings net rawPrompt log response :
  trim (apiKey (getConfig settings)) <> [] ->
  net (the_call settings rawPrompt) = Normal response ->
  snd (refactorPrompt settings net rawPrompt log)
  = caught (snd (interpret response [])).
Proof.
  intros Hkey Hnet. rewrite (refactorPrompt_run _ _ _ _ Hkey), Hnet. reflexivity.
Qed.

End Runs.

(** ** The pre-flight check *)

Section PreFlight.

Variables (settings : WorkspaceConfiguration) (net : Transport).
Variables (rawPrompt : jsstring) (log : list FetchCall).

(** C3. With an [apiKey] that is empty or made of white space only,
    [refactorPrompt] fails with [NO_API_KEY] and the log of calls on the
    transport is left as it was: no network request is issued. *)
Theorem blank_api_key_fails_before_any_call :
  apiKey (getConfig settings) = [] \/ whitespace_only (apiKey (getConfig settings)) ->
  refactorPrompt settings net rawPrompt log
  = (log, fails no_api_key_message NO_API_KEY).
Proof.
  intros Hblank.
  assert (Hws : whitespace_only (apiKey (getConfig settings))).
  { destruct Hblank as [-> | H]; [constructor | exact H]. }
  unfold refactorPrompt, async_bind, evaluate.
  rewrite (validateApiKey_blank _ Hws). reflexivity.
Qed.

End PreFlight.

(** ** The status-code checks *)

Section StatusChecks.

Variables (settings : WorkspaceConfiguration) (net : Transport).
Variables (rawPrompt : jsstring) (log : list FetchCall).
Variable response : Response.

Hypothesis key_configured : trim (apiKey (getConfig settings)) <> [].
Hypothesis answered : net (the_call settings rawPrompt) = Normal response.

Lemma ok_excludes_429_401 :
  ok response = true ->
  (status response =? 429)%Z = false /\ (status response =? 401)%Z = false.
Proof.
  unfold ok. intros H. apply andb_true_iff in H as [_ H].
  apply Z.leb_le in H. split; apply Z.eqb_neq; lia.
Qed.

Lemma rate_limited_outcome :
  status response = 429%Z ->
  snd (refactorPrompt settings net rawPrompt log)
  = fails (lit "Rate limit exceeded. Please try again "
             ++ match headers_get response (lit "retry-after") with
                | Some [] | None => lit "later"
                | Some seconds => lit "in " ++ seconds ++ lit " seconds"
                end
             ++ lit ".")
          RATE_LIMIT.
Proof.
  intros Hs. rewrite (refactorPrompt_answered _ _ _ _ _ key_configured answered).
  unfold interpret. rewrite Hs. simpl Z.eqb. cbv iota.
  destruct (headers_get response (lit "retry-after")) as [[|c seconds]|];
    reflexivity.
Qed.

Lemma unauthorized_outcome :
  status response = 401%Z ->
  snd (refactorPrompt settings net rawPrompt log)
  = fails invalid_api_key_message NO_API_KEY.
Proof.
  intros Hs. rewrite (refactorPrompt_answered _ _ _ _ _ key_configured answered).
  unfold interpret. rewrite Hs. reflexivity.
Qed.

Lemma http_error_outcome (errorBody : jsstring) :
  (status response < 200 \/ 299 < status response)%Z ->
  status response <> 429%Z ->
  status response <> 401%Z ->
  text response = Normal errorBody ->
  snd (refactorPrompt settings net rawPrompt log)
  = fails (lit "API request failed (" ++ integer_toString (status response)
             ++ lit "): " ++ errorBody)
          API_ERROR.
Proof.
  intros Hrange H429 H401 Htext.
  rewrite (refactorPrompt_answered _ _ _ _ _ key_configured answered).
  unfold interpret.
  rewrite (proj2 (Z.eqb_neq _ _) H429), (proj2 (Z.eqb_neq _ _) H401).
  assert (Hok : ok response = false).
  { unfold ok. apply andb_false_iff.
    destruct Hrange; [left; apply Z.leb_gt | right; apply Z.leb_gt]; lia. }
  rewrite Hok. simpl negb. cbv iota.
  unfold async_bind, await, evaluate. rewrite Htext. reflexivity.
Qed.

(** C4 (amended). A response with status 429 fails with [RATE_LIMIT].  When
    the [retry-after] header is present with a non-empty value N the message
    contains "in N seconds"; when the header is absent, or present with an
    empty value, the message is the generic "try again later" one. *)
Theorem rate_limit_names_nonempty_retry_after :
  status response = 429%Z ->
  exists msg,
    snd (refactorPrompt settings net rawPrompt log) = fails msg RATE_LIMIT
    /\ (forall seconds,
          headers_get response (lit "retry-after") = Some seconds ->
          seconds <> [] ->
          contains msg (lit "in " ++ seconds ++ lit " seconds"))
    /\ (headers_get response (lit "retry-after") = None
        \/ headers_get response (lit "retry-after") = Some [] ->
        msg = lit "Rate limit exceeded. Please try again later.").
Proof.
  intros Hs. eexists. split; [apply (rate_limited_outcome Hs) |]. split.
  - intros seconds -> Hne. destruct seconds as [|c seconds]; [now elim Hne |].
    apply contains_middle.
  - intros [-> | ->]; reflexivity.
Qed.

(** C5. A response with status 401 fails with [NO_API_KEY], and its message
    is not the message of the pre-flight check for a missing key. *)
Theorem unauthorized_is_no_api_key_with_its_own_message :
  status response = 401%Z ->
  snd (refactorPrompt settings net rawPrompt log)
  = fails invalid_api_key_message NO_API_KEY
  /\ (forall key e,
        validateApiKey key = Throw (ThrownLLMError e) ->
        message e <> invalid_api_key_message).
Proof.
  intros Hs. split.
  - exact (unauthorized_outcome Hs).
  - intros key e. unfold validateApiKey.
    destruct (_ || _); [| discriminate].
    intros H. injection H as <-. simpl. discriminate.
Qed.

(** C6. A response whose status is outside 200-299 and is neither 429 nor
    401, and whose body reads as the text [errorBody], fails with
    [API_ERROR]; the message contains the decimal status code and the body
    text. *)
Theorem other_http_error_reports_status_and_body (errorBody : jsstring) :
  (status response < 200 \/ 299 < status response)%Z ->
  status response <> 429%Z ->
  status response <> 401%Z ->
  text response = Normal errorBody ->
  exists msg,
    snd (refactorPrompt settings net rawPrompt log) = fails msg API_ERROR
    /\ contains msg (integer_toString (status response))
    /\ contains msg errorBody.
Proof.
  intros Hrange H429 H401 Htext. eexists. split; [| split].
  - exact (http_error_outcome errorBody Hrange H429 H401 Htext).
  - apply contains_middle.
  - apply contains_app_r, contains_app_r, contains_suffix.
Qed.

End StatusChecks.

(** ** Responses with a 2xx status and a JSON body *)

Section JsonBodies.

Variables (settings : WorkspaceConfiguration) (net : Transport).
Variables (rawPrompt : jsstring) (log : list FetchCall).
Variables (response : Response) (data : value).

Hypothesis key_configured : trim (apiKey (getConfig settings)) <> [].
Hypothesis answered : net (the_call settings rawPrompt) = Normal response.
Hypothesis status_2xx : ok response = true.
Hypothesis parsed : json response = Normal data.

Lemma embedded_error_outcome (data_error : value) :
  Get data P_error = Normal data_error ->
  truthy data_error = true ->
  snd (refactorPrompt settings net rawPrompt log)
  = caught
      (completion_bind (Get data_error P_message) (fun data_error_message =>
       completion_bind (ToString data_error_message) (fun shown =>
       fails (lit "API error: " ++ shown) API_ERROR))).
Proof.
  intros Herr Htruthy.
  rewrite (refactorPrompt_answered _ _ _ _ _ key_configured answered).
  unfold interpret.
  destruct (ok_excludes_429_401 response status_2xx) as [-> ->].
  rewrite status_2xx. simpl negb. cbv iota.
  unfold async_bind, await, evaluate. rewrite parsed, Herr, Htruthy.
  destruct (Get data_error P_message) as [e | m]; [reflexivity |].
  simpl completion_bind. destruct (ToString m); reflexivity.
Qed.

Lemma error_free_outcome (data_error refactoredPrompt : value) :
  Get data P_error = Normal data_error ->
  truthy data_error = false ->
  choices_0_message_content data = Normal refactoredPrompt ->
  snd (refactorPrompt settings net rawPrompt log)
  = if negb (truthy refactoredPrompt)
    then fails invalid_response_message INVALID_RESPONSE
    else caught (call_trim refactoredPrompt).
Proof.
  intros Herr Hfalsy Hcontent.
  rewrite (refactorPrompt_answered _ _ _ _ _ key_configured answered).
  unfold interpret.
  destruct (ok_excludes_429_401 response status_2xx) as [-> ->].
  rewrite status_2xx. simpl negb. cbv iota.
  unfold async_bind, await, evaluate. rewrite parsed, Herr, Hfalsy, Hcontent.
  destruct (truthy refactoredPrompt); [| reflexivity].
  simpl negb. cbv iota. destruct (call_trim refactoredPrompt); reflexivity.
Qed.

(** The optional chain [data.choices?.[0]?.message?.content] on a body of
    the response shape: the string at the end of the path, [undefined] or
    [null] when a link is absent; it does not throw. *)
Lemma content_at_path_extracted
    (members : list (jsstring * value)) (content : option jsstring) :
  content_at_path members content ->
  exists extracted,
    choices_0_message_content (VObject members) = Normal extracted
    /\ match content with
       | Some s => extracted = VString s
       | None => extracted = VUndefined \/ extracted = VNull
       end.
Proof.
  unfold choices_0_message_content. cbn [Get property_key completion_bind].
  intros [ [H | H]
         | elements Hchoices [H | H]
         | elements choice Hchoices Hfirst [H | H]
         | elements choice msg Hchoices Hfirst Hmessage [H | H]
         | elements choice msg s Hchoices Hfirst Hmessage Hcontent ];
    try rewrite Hchoices;
    try (destruct elements as [| first rest]; cbn [hd_error] in *;
         try discriminate;
         repeat match goal with
                | E : Some _ = Some _ |- _ => injection E as E; try subst first
                end);
    cbn [optional_chain Get_index0 Get property_key completion_bind];
    try rewrite Hmessage;
    cbn [optional_chain Get property_key completion_bind];
    try rewrite Hcontent; try rewrite H;
    cbn [optional_chain Get_index0 Get property_key completion_bind];
    eexists; (split; [reflexivity |]); auto.
Qed.

(** C1. For a 2xx response whose JSON body is an object that carries no
    error (it has no member [error], or a falsy one) and has the response
    shape: when a link of [choices[0].message.content] is absent (missing,
    or [null]; an empty [choices] has no first element) or the content is
    the empty string, the call fails with [INVALID_RESPONSE]; when the
    content is a non-empty string the call succeeds and returns that string
    trimmed. *)
Theorem content_absent_or_empty_is_invalid_else_trimmed
    (members : list (jsstring * value)) (content : option jsstring) :
  data = VObject members ->
  (forall data_error,
      own_property members (lit "error") = Some data_error ->
      truthy data_error = false) ->
  content_at_path members content ->
  (content = None \/ content = Some [] ->
   snd (refactorPrompt settings net rawPrompt log)
   = fails invalid_response_message INVALID_RESPONSE)
  /\ (forall s, content = Some s -> s <> [] ->
      snd (refactorPrompt settings net rawPrompt log) = Normal (trim s)).
Proof.
  intros Hdata Herror Hpath.
  destruct (content_at_path_extracted members content Hpath)
    as [extracted [Hextracted Hcontent]].
  rewrite <- Hdata in Hextracted.
  assert (Hfalsy :
            exists data_error,
              Get data P_error = Normal data_error
              /\ truthy data_error = false).
  { rewrite Hdata. cbn [Get property_key].
    destruct (own_property members (lit "error")) as [data_error |] eqn:E.
    - exists data_error. split; [reflexivity | now apply Herror].
    - now exists VUndefined. }
  destruct Hfalsy as [data_error [Hget Hfalsy]].
  rewrite (error_free_outcome _ _ Hget Hfalsy Hextracted). split.
  - intros [-> | ->].
    + destruct Hcontent as [-> | ->]; reflexivity.
    + rewrite Hcontent. reflexivity.
  - intros s -> Hne. rewrite Hcontent.
    destruct s as [|c s]; [now elim Hne | reflexivity].
Qed.

(** C10. For a 2xx response with no embedded error whose
    [choices[0].message.content] is a non-empty string of white space only,
    the call succeeds and returns the empty string: the emptiness test sees
    the untrimmed content. *)
Theorem whitespace_only_content_succeeds_with_empty_string
    (data_error : value) (s : jsstring) :
  Get data P_error = Normal data_error ->
  truthy data_error = false ->
  choices_0_message_content data = Normal (VString s) ->
  s <> [] ->
  whitespace_only s ->
  snd (refactorPrompt settings net rawPrompt log) = Normal [].
Proof.
  intros Herr Hfalsy Hcontent Hne Hws.
  rewrite (error_free_outcome _ _ Herr Hfalsy Hcontent).
  destruct s as [|c s]; [now elim Hne |].
  simpl. now rewrite (trim_whitespace_only _ Hws).
Qed.

(** Whatever truthy value [data.error] holds, the call fails with
    [API_ERROR]. *)
Lemma truthy_error_is_api_error (data_error : value) :
  Get data P_error = Normal data_error ->
  truthy data_error = true ->
  exists msg,
    snd (refactorPrompt settings net rawPrompt log) = fails msg API_ERROR.
Proof.
  intros Herr Htruthy. rewrite (embedded_error_outcome _ Herr Htruthy).
  destruct data_error; try discriminate; simpl Get; simpl completion_bind;
    try (eexists; reflexivity).
  destruct (ToString _) as [e | shown] eqn:E; [| eexists; reflexivity].
  apply ToString_throws in E as ->. eexists; reflexivity.
Qed.

End JsonBodies.

(** ** The embedded error and the order of the checks *)

Section EmbeddedError.

Variables (settings : WorkspaceConfiguration) (net : Transport).
Variables (rawPrompt : jsstring) (log : list FetchCall).
Variables (response : Response) (data : value).
Variables (props : list (jsstring * value)) (embedded : jsstring).

Hypothesis key_configured : trim (apiKey (getConfig settings)) <> [].
Hypothesis answered : net (the_call settings rawPrompt) = Normal response.
Hypothesis parsed : json response = Normal data.
Hypothesis error_object : Get data P_error = Normal (VObject props).
Hypothesis error_message :
  own_property props (lit "message") = Some (VString embedded).

(** C7 (amended). Take a response whose JSON body contains an error object
    with the message [embedded], whatever else the body holds.  With status
    429 the call fails with [RATE_LIMIT]; with status 401, with
    [NO_API_KEY]; with another status outside 200-299, with the [API_ERROR]
    that reports status and body text; only with a 2xx status is the
    embedded error looked at, and then, before any content is extracted, the
    call fails with [API_ERROR] and the message "API error: " followed by
    the embedded message. *)
Theorem embedded_error_after_status_checks_with_prefix :
  (status response = 429%Z ->
   exists msg,
     snd (refactorPrompt settings net rawPrompt log) = fails msg RATE_LIMIT)
  /\ (status response = 401%Z ->
      snd (refactorPrompt settings net rawPrompt log)
      = fails invalid_api_key_message NO_API_KEY)
  /\ (forall errorBody,
        (status response < 200 \/ 299 < status response)%Z ->
        status response <> 429%Z ->
        status response <> 401%Z ->
        text response = Normal errorBody ->
        snd (refactorPrompt settings net rawPrompt log)
        = fails (lit "API request failed (" ++ integer_toString (status response)
                   ++ lit "): " ++ errorBody)
                API_ERROR)
  /\ (ok response = true ->
      snd (refactorPrompt settings net rawPrompt log)
      = fails (lit "API error: " ++ embedded) API_ERROR).
Proof.
  repeat split.
  - intros Hs. eexists.
    exact (rate_limited_outcome settings net rawPrompt log response
             key_configured answered Hs).
  - exact (unauthorized_outcome settings net rawPrompt log response
             key_configured answered).
  - intros errorBody.
    exact (http_error_outcome settings net rawPrompt log response
             key_configured answered errorBody).
  - intros Hok.
    rewrite (embedded_error_outcome settings net rawPrompt log response data
               key_configured answered Hok parsed (VObject props) error_object
               eq_refl).
    cbn [Get property_key]. rewrite error_message. reflexivity.
Qed.

End EmbeddedError.

(** ** Exceptions of the transport and of the body readers *)

Section Exceptions.

Variables (settings : WorkspaceConfiguration) (net : Transport).
Variables (rawPrompt : jsstring) (log : list FetchCall).

Hypothesis key_configured : trim (apiKey (getConfig settings)) <> [].

Lemma is_fetch_TypeError_true (e : thrown) :
  is_fetch_TypeError e = true <-> connection_failure e.
Proof.
  unfold connection_failure. split.
  - destruct e as [x | [] msg | r | u]; simpl; try discriminate.
    intros H. exists msg. split; [reflexivity | now apply includes_contains].
  - intros [msg [-> H]]. simpl. now apply includes_contains.
Qed.

Lemma raised_outcome (e : thrown) :
  raises net (the_call settings rawPrompt) e ->
  snd (refactorPrompt settings net rawPrompt log) = caught (Throw e).
Proof.
  intros [Hnet | response Hnet Hrange H429 H401 Htext | response Hnet Hok Hjson].
  - rewrite (refactorPrompt_run _ _ _ _ key_configured), Hnet. reflexivity.
  - rewrite (refactorPrompt_answered _ _ _ _ _ key_configured Hnet).
    f_equal. unfold interpret.
    rewrite (proj2 (Z.eqb_neq _ _) H429), (proj2 (Z.eqb_neq _ _) H401).
    assert (Hok : ok response = false).
    { unfold ok. apply andb_false_iff.
      destruct Hrange; [left; apply Z.leb_gt | right; apply Z.leb_gt]; lia. }
    rewrite Hok. simpl negb. cbv iota.
    unfold async_bind, await, evaluate. rewrite Htext. reflexivity.
  - rewrite (refactorPrompt_answered _ _ _ _ _ key_configured Hnet).
    f_equal. unfold interpret.
    destruct (ok_excludes_429_401 response Hok) as [-> ->].
    rewrite Hok. simpl negb. cbv iota.
    unfold async_bind, await, evaluate. rewrite Hjson. reflexivity.
Qed.


(** A thrown value that [String] cannot convert leaves [refactorPrompt]
    with the exception of the conversion, whatever that is. *)
Lemma unprintable_outcome (raised : thrown) :
  raises net (the_call settings rawPrompt) (ThrownUnprintable raised) ->
  snd (refactorPrompt settings net rawPrompt log) = Throw raised.
Proof. intros Hraised. now rewrite (raised_outcome _ Hraised). Qed.

End Exceptions.

(** ** The outcome as a function of the response *)

Section Determinism.

Lemma interpret_agrees (r1 r2 : Response) :
  status r1 = status r2 ->
  (forall name, headers_get r1 name = headers_get r2 name) ->
  text r1 = text r2 ->
  json r1 = json r2 ->
  snd (interpret r1 []) = snd (interpret r2 []).
Proof.
  intros Hstatus Hheaders Htext Hjson.
  unfold interpret, ok. now rewrite Hstatus, Hheaders, Htext, Hjson.
Qed.

(** C9. The outcome is a function of the status, the headers and the body
    of the response: two runs, whatever their settings, prompts and logs,
    whose transports answer with responses that agree on the status, on
    every header and on what [text()] and [json()] yield, settle to the same
    outcome.  In particular the same response interpreted twice gives the
    same success text or the same error code and message. *)
Theorem outcome_is_a_function_of_the_response
    (settings1 settings2 : WorkspaceConfiguration) (net1 net2 : Transport)
    (rawPrompt1 rawPrompt2 : jsstring) (log1 log2 : list FetchCall)
    (r1 r2 : Response) :
  trim (apiKey (getConfig settings1)) <> [] ->
  trim (apiKey (getConfig settings2)) <> [] ->
  net1 (the_call settings1 rawPrompt1) = Normal r1 ->
  net2 (the_call settings2 rawPrompt2) = Normal r2 ->
  status r1 = status r2 ->
  (forall name, headers_get r1 name = headers_get r2 name) ->
  text r1 = text r2 ->
  json r1 = json r2 ->
  snd (refactorPrompt settings1 net1 rawPrompt1 log1)
  = snd (refactorPrompt settings2 net2 rawPrompt2 log2).
Proof.
  intros Hkey1 Hkey2 Hnet1 Hnet2 Hstatus Hheaders Htext Hjson.
  rewrite (refactorPrompt_answered _ _ _ _ _ Hkey1 Hnet1).
  rewrite (refactorPrompt_answered _ _ _ _ _ Hkey2 Hnet2).
  f_equal. now apply interpret_agrees.
Qed.

End Determinism.

(** ** The outbound request *)

Section Requests.

Variables (settings : WorkspaceConfiguration) (net : Transport).
Variables (rawPrompt : jsstring).

(** The calls a run adds to the log: the one request when a key is
    configured, none otherwise. *)
Lemma calls_made (log : list FetchCall) :
  fst (refactorPrompt settings net rawPrompt log)
  = log ++ match validateApiKey (apiKey (getConfig settings)) with
           | Normal _ => [the_call settings rawPrompt]
           | Throw _ => []
           end.
Proof.
  unfold refactorPrompt, async_bind at 1, evaluate.
  destruct (validateApiKey (apiKey (getConfig settings))) as [e | []].
  - now rewrite app_nil_r.
  - unfold try_catch, async_bind, fetch. fold (the_call settings rawPrompt).
    destruct (net (the_call settings rawPrompt)) as [e | response].
    + now rewrite classify_pure.
    + rewrite interpret_pure.
      destruct (snd (interpret response [])) as [e | s]; [| reflexivity].
      now rewrite classify_pure.
Qed.

Lemma exactly_one_call :
  trim (apiKey (getConfig settings)) <> [] ->
  fst (refactorPrompt settings net rawPrompt []) = [the_call settings rawPrompt].
Proof.
  intros Hkey. now rewrite calls_made, (validateApiKey_set _ Hkey).
Qed.

Lemma request_body_text (config : LLMConfig) :
  JSON_stringify (requestBody config rawPrompt) = Some (wire_body config rawPrompt).
Proof. reflexivity. Qed.

(** C2. Every request a run sends, for whatever settings and raw input, has
    as its body the serialization of an object whose [messages] are exactly
    two, the system message with the fixed instruction text and the user
    message with the raw input as its content, whose [model] and
    [max_tokens] are those of the configuration and whose [temperature] is
    0.7.  On the wire the raw input is written by [QuoteJSONString], from
    which a reader gets it back unchanged. *)
Theorem every_request_carries_instruction_and_raw_input (call : FetchCall) :
  In call (fst (refactorPrompt settings net rawPrompt [])) ->
  body (init call)
  = JSON_stringify
      (VObject
         [ (lit "model", VString (model (getConfig settings)));
           (lit "messages",
            VArray
              [ VObject [ (lit "role", VString (lit "system"));
                          (lit "content", VString SYSTEM_PROMPT) ];
                VObject [ (lit "role", VString (lit "user"));
                          (lit "content", VString rawPrompt) ] ]);
           (lit "max_tokens", VNumber (maxTokens (getConfig settings)));
           (lit "temperature", VNumber (Num (lit "0.7"))) ])
  /\ body (init call) = Some (wire_body (getConfig settings) rawPrompt)
  /\ read_JSON_string (QuoteJSONString rawPrompt) = Some rawPrompt.
Proof.
  rewrite calls_made. cbn [app].
  destruct (validateApiKey (apiKey (getConfig settings))); [intros [] |].
  intros [<- | []]. repeat split.
  apply read_QuoteJSONString.
Qed.

End Requests.

(** ** Concrete runs *)

Section ConcreteRuns.

Lemma example_key_configured :
  trim (apiKey (getConfig example_settings)) <> [].
Proof. discriminate. Qed.

(** Status 200 with [{"choices":[]}] gives [INVALID_RESPONSE]; status 200
    with [{"choices":[{"message":{"content":"  Improved text  "}}]}] gives
    "Improved text". *)
Lemma empty_choices_fail_and_improved_text_comes_back_trimmed :
  snd (refactorPrompt example_settings
         (answering (json_response 200 (VObject [ (lit "choices", VArray []) ])))
         example_prompt [])
  = fails invalid_response_message INVALID_RESPONSE
  /\ snd (refactorPrompt example_settings
            (answering (json_response 200
                          (completion_of (VString (lit "  Improved text  ")))))
            example_prompt [])
     = Normal (lit "Improved text").
Proof.
  split.
  - refine (proj1
              (content_absent_or_empty_is_invalid_else_trimmed
                 example_settings
                 (answering (json_response 200
                               (VObject [ (lit "choices", VArray []) ])))
                 example_prompt []
                 (json_response 200 (VObject [ (lit "choices", VArray []) ]))
                 (VObject [ (lit "choices", VArray []) ])
                 example_key_configured eq_refl eq_refl eq_refl
                 [ (lit "choices", VArray []) ] None
                 eq_refl _ _)
              (or_introl eq_refl)).
    + intros data_error H. discriminate H.
    + apply (no_first_choice _ []); [reflexivity | left; reflexivity].
  - refine (proj2
              (content_absent_or_empty_is_invalid_else_trimmed
                 example_settings
                 (answering (json_response 200
                               (completion_of
                                  (VString (lit "  Improved text  ")))))
                 example_prompt []
                 (json_response 200
                    (completion_of (VString (lit "  Improved text  "))))
                 (completion_of (VString (lit "  Improved text  ")))
                 example_key_configured eq_refl eq_refl eq_refl
                 [ (lit "choices",
                    VArray [ VObject [ (lit "message",
                                        VObject [ (lit "content",
                                                   VString
                                                     (lit "  Improved text  ")) ]) ] ]) ]
                 (Some (lit "  Improved text  "))
                 eq_refl _ _)
              (lit "  Improved text  ") eq_refl _).
    + intros data_error H. discriminate H.
    + eapply string_content; reflexivity.
    + discriminate.
Defined.

(** Status 200 with [{"choices":[]}] gives [INVALID_RESPONSE]. *)
Example empty_choices_is_invalid_response :
  snd (refactorPrompt example_settings
         (answering (json_response 200 (VObject [ (lit "choices", VArray []) ])))
         example_prompt [])
  = fails invalid_response_message INVALID_RESPONSE.
Proof. reflexivity. Qed.

(** A [content] of white space only gives the empty string. *)
Lemma blank_content_gives_empty_text :
  snd (refactorPrompt example_settings
         (answering (json_response 200 (completion_of (VString [32; 10; 32]%N))))
         example_prompt [])
  = Normal [].
Proof.
  refine (whitespace_only_content_succeeds_with_empty_string
            example_settings
            (answering (json_response 200 (completion_of (VString [32; 10; 32]%N))))
            example_prompt []
            (json_response 200 (completion_of (VString [32; 10; 32]%N)))
            (completion_of (VString [32; 10; 32]%N))
            example_key_configured eq_refl eq_refl eq_refl
            VUndefined [32; 10; 32]%N eq_refl eq_refl eq_refl _ _).
  - discriminate.
  - repeat constructor.
Defined.

(** The request of the example settings. *)
Lemma example_request_body :
  body (init (the_call example_settings example_prompt))
  = Some (wire_body (getConfig example_settings) example_prompt)
  /\ read_JSON_string (QuoteJSONString example_prompt) = Some example_prompt.
Proof.
  refine (proj2
            (every_request_carries_instruction_and_raw_input
               example_settings (failing not_json) example_prompt
               (the_call example_settings example_prompt) _)).
  left. reflexivity.
Defined.

(** A key of a space, a tab and a no-break space: no call, [NO_API_KEY]. *)
Lemma blank_key_makes_no_call :
  refactorPrompt blank_settings (failing not_json) example_prompt []
  = ([], fails no_api_key_message NO_API_KEY).
Proof.
  refine (blank_api_key_fails_before_any_call
            blank_settings (failing not_json) example_prompt [] _).
  right. repeat constructor.
Defined.

(** Status 429 with [retry-after: 30]. *)
Lemma retry_after_30_is_reported :
  exists msg,
    snd (refactorPrompt example_settings
           (answering (text_response 429 (Some (lit "30")) []))
           example_prompt [])
    = fails msg RATE_LIMIT
    /\ contains msg (lit "30 seconds").
Proof.
  destruct (rate_limit_names_nonempty_retry_after
              example_settings
              (answering (text_response 429 (Some (lit "30")) []))
              example_prompt [] (text_response 429 (Some (lit "30")) [])
              example_key_configured eq_refl eq_refl)
    as [msg [Hout [Hnamed _]]].
  exists msg. split; [exact Hout |].
  destruct (Hnamed (lit "30") eq_refl) as [before [after ->]]; [discriminate |].
  exists (before ++ lit "in "), after.
  rewrite <- !app_assoc. reflexivity.
Defined.

(** Status 401. *)
Lemma status_401_is_no_api_key :
  snd (refactorPrompt example_settings
         (answering (text_response 401 None []))
         example_prompt [])
  = fails invalid_api_key_message NO_API_KEY.
Proof.
  exact (proj1
           (unauthorized_is_no_api_key_with_its_own_message
              example_settings
              (answering (text_response 401 None []))
              example_prompt [] (text_response 401 None [])
              example_key_configured eq_refl eq_refl)).
Defined.

(** Status 500 with the body "server exploded". *)
Lemma status_500_reports_status_and_body :
  exists msg,
    snd (refactorPrompt example_settings
           (answering (text_response 500 None (lit "server exploded")))
           example_prompt [])
    = fails msg API_ERROR
    /\ contains msg (lit "500")
    /\ contains msg (lit "server exploded").
Proof.
  refine (other_http_error_reports_status_and_body
            example_settings
            (answering (text_response 500 None (lit "server exploded")))
            example_prompt [] (text_response 500 None (lit "server exploded"))
            example_key_configured eq_refl
            (lit "server exploded") _ _ _ eq_refl).
  - right. reflexivity.
  - discriminate.
  - discriminate.
Defined.

(** Status 200 with an error envelope, next to a usable completion. *)
Lemma embedded_error_wins_over_content :
  snd (refactorPrompt example_settings
         (answering
            (json_response 200
               error_next_to_content))
         example_prompt [])
  = fails (lit "API error: quota exceeded") API_ERROR.
Proof.
  refine (proj2 (proj2 (proj2
            (embedded_error_after_status_checks_with_prefix
               example_settings
               (answering (json_response 200 error_next_to_content))
               example_prompt []
               (json_response 200 error_next_to_content) error_next_to_content
               [ (lit "message", VString (lit "quota exceeded")) ]
               (lit "quota exceeded")
               example_key_configured eq_refl eq_refl eq_refl eq_refl)))
            eq_refl).
Defined.



Example null_prototype_object_escapes :
  snd (refactorPrompt example_settings (failing null_prototype_object)
         example_prompt [])
  = Throw (ThrownError TypeError (lit "Cannot convert object to primitive value")).
Proof. reflexivity. Qed.

(** The test for a connection failure looks at the class and the message
    only: a refused connection reported as a plain [Error] is wrapped as
    [API_ERROR], message kept. *)
Example refused_connection_is_wrapped_as_api_error :
  snd (refactorPrompt example_settings
         (failing (ThrownError OtherError
                     (lit "connect ECONNREFUSED 127.0.0.1:443")))
         example_prompt [])
  = fails (lit "Unexpected error: connect ECONNREFUSED 127.0.0.1:443") API_ERROR.
Proof. reflexivity. Qed.

(** Two runs with different settings and prompts whose responses agree. *)
Lemma agreeing_responses_agreeing_outcomes :
  snd (refactorPrompt example_settings
         (answering (text_response 503 None (lit "busy")))
         example_prompt [])
  = snd (refactorPrompt
           other_settings (answering busy_response)
           (lit "another prompt") []).
Proof.
  refine (outcome_is_a_function_of_the_response
            example_settings other_settings
            (answering (text_response 503 None (lit "busy")))
            (answering busy_response)
            example_prompt (lit "another prompt") [] []
            (text_response 503 None (lit "busy")) busy_response
            example_key_configured _ eq_refl eq_refl eq_refl _ eq_refl eq_refl).
  - discriminate.
  - intros name. simpl.
    destruct (jsstring_eqb name (lit "retry-after")); reflexivity.
Defined.

(** C4, as first stated, does not hold: a [retry-after] header that is
    present with the empty value is falsy, so the message is the generic one
    and does not contain "in  seconds". *)
Lemma empty_retry_after_is_not_reported :
  ~ (forall settings net rawPrompt log response seconds,
       trim (apiKey (getConfig settings)) <> [] ->
       net (the_call settings rawPrompt) = Normal response ->
       status response = 429%Z ->
       headers_get response (lit "retry-after") = Some seconds ->
       exists msg,
         snd (refactorPrompt settings net rawPrompt log) = fails msg RATE_LIMIT
         /\ contains msg (lit "in " ++ seconds ++ lit " seconds")).
Proof.
  intros claim.
  destruct (claim example_settings
              (answering (text_response 429 (Some []) []))
              example_prompt [] (text_response 429 (Some []) []) []
              example_key_configured eq_refl eq_refl eq_refl)
    as [msg [Hout Hin]].
  injection Hout as <-.
  apply includes_contains in Hin. discriminate Hin.
Qed.

Example empty_retry_after_message :
  snd (refactorPrompt example_settings
         (answering (text_response 429 (Some []) []))
         example_prompt [])
  = fails (lit "Rate limit exceeded. Please try again later.") RATE_LIMIT.
Proof. reflexivity. Qed.

(** C7, as first stated, does not hold: the message of the error is not the
    embedded message itself but that message after "API error: ". *)
Lemma embedded_message_is_prefixed :
  ~ (forall settings net rawPrompt log response data props embedded,
       trim (apiKey (getConfig settings)) <> [] ->
       net (the_call settings rawPrompt) = Normal response ->
       ok response = true ->
       json response = Normal data ->
       Get data P_error = Normal (VObject props) ->
       own_property props (lit "message") = Some (VString embedded) ->
       snd (refactorPrompt settings net rawPrompt log) = fails embedded API_ERROR).
Proof.
  intros claim.
  specialize (claim example_settings
                (answering (json_response 200 (error_envelope (lit "boom"))))
                example_prompt []
                (json_response 200 (error_envelope (lit "boom")))
                (error_envelope (lit "boom"))
                [ (lit "message", VString (lit "boom"));
                  (lit "type", VString (lit "server_error")) ]
                (lit "boom")
                example_key_configured eq_refl eq_refl eq_refl eq_refl eq_refl).
  discriminate claim.
Qed.

Example embedded_boom_message :
  snd (refactorPrompt example_settings
         (answering (json_response 200 (error_envelope (lit "boom"))))
         example_prompt [])
  = fails (lit "API error: boom") API_ERROR.
Proof. reflexivity. Qed.

(** Outside the declared shape of a response: a [content] that is a Number
    passes the emptiness test and has no [trim]; a body that is [null] has
    no [error] to read.  Both end in the [catch] clause as [API_ERROR]. *)
Example numeric_content_is_unexpected_error :
  snd (refactorPrompt example_settings
         (answering (json_response 200 (completion_of (VNumber (number_of_Z 5)))))
         example_prompt [])
  = fails (lit "Unexpected error: refactoredPrompt.trim is not a function")
          API_ERROR.
Proof. reflexivity. Qed.

Example null_body_is_unexpected_error :
  snd (refactorPrompt example_settings
         (answering (json_response 200 VNull))
         example_prompt [])
  = fails (lit "Unexpected error: Cannot read properties of null (reading 'error')")
          API_ERROR.
Proof. reflexivity. Qed.

(** A body that is no JSON: the [SyntaxError] of [json()] is wrapped. *)
Example unparsable_body_is_unexpected_error :
  snd (refactorPrompt example_settings
         (answering (text_response 200 None (lit "server exploded")))
         example_prompt [])
  = fails (lit "Unexpected error: Unexpected token s in JSON at position 0")
          API_ERROR.
Proof. reflexivity. Qed.

(** A [content] of [null], as a completion that only calls tools has it. *)
Example null_content_is_invalid_response :
  snd (refactorPrompt example_settings
         (answering (json_response 200 (completion_of VNull)))
         example_prompt [])
  = fails invalid_response_message INVALID_RESPONSE.
Proof. reflexivity. Qed.

End ConcreteRuns.

(** * Further properties of the service *)

(** ** What [trim] returns *)

Section TrimFacts.

Lemma trimStart_suffix (s : jsstring) :
  exists blank, s = blank ++ trimStart s /\ whitespace_only blank.
Proof.
  induction s as [|c s [blank [IH Hblank]]]; simpl.
  - exists []. split; [reflexivity | constructor].
  - destruct (is_white_space c) eqn:Hc.
    + exists (c :: blank). split; [simpl; now rewrite <- IH | now constructor].
    + exists []. split; [reflexivity | constructor].
Qed.

Lemma trimStart_fixed (s : jsstring) :
  match s with
  | [] => True
  | c :: _ => is_white_space c = false
  end ->
  trimStart s = s.
Proof. destruct s as [|c s]; simpl; [reflexivity | now intros ->]. Qed.

(** The first code unit of a trimmed string is no white space. *)
Lemma trim_head (s : jsstring) (c : code_unit) (rest : jsstring) :
  trim s = c :: rest -> is_white_space c = false.
Proof.
  unfold trim, trimEnd. intros H.
  destruct (trimStart s) as [|d u] eqn:Hu; [discriminate |].
  pose proof (trimStart_head _ _ _ Hu) as Hd.
  destruct (trimStart_suffix (rev (d :: u))) as [blank [Hrev Hblank]].
  apply (f_equal (@rev code_unit)) in Hrev.
  rewrite rev_involutive, rev_app_distr, H in Hrev.
  injection Hrev as <- _. exact Hd.
Qed.

(** The last code unit of a trimmed string is no white space. *)
Lemma trim_last (s front : jsstring) (c : code_unit) :
  trim s = front ++ [c] -> is_white_space c = false.
Proof.
  unfold trim, trimEnd. intros H.
  apply (f_equal (@rev code_unit)) in H.
  rewrite rev_involutive, rev_app_distr in H. simpl in H.
  exact (trimStart_head _ _ _ H).
Qed.

Lemma trim_idempotent (s : jsstring) : trim (trim s) = trim s.
Proof.
  assert (Hstart : trimStart (trim s) = trim s).
  { apply trimStart_fixed. destruct (trim s) as [|c rest] eqn:E; [exact I |].
    exact (trim_head _ _ _ E). }
  unfold trim at 1. rewrite Hstart. unfold trimEnd.
  rewrite trimStart_fixed; [apply rev_involutive |].
  destruct (rev (trim s)) as [|c rest] eqn:E; [exact I |].
  apply (f_equal (@rev code_unit)) in E. rewrite rev_involutive in E.
  simpl in E. exact (trim_last _ _ _ E).
Qed.

End TrimFacts.

(** ** Exceptions of the body handling *)

Section BodyExceptions.

Lemma Get_throws (v : value) (p : property_name) (e : thrown) :
  Get v p = Throw e -> wrapped e.
Proof.
  destruct v; simpl; try discriminate; intros H; injection H as <-;
    destruct p; repeat split.
Qed.

Lemma Get_index0_throws (v : value) (e : thrown) :
  Get_index0 v = Throw e -> wrapped e.
Proof.
  destruct v; simpl; try discriminate; intros H; injection H as <-;
    repeat split.
Qed.

Lemma optional_chain_throws (v : value) (access : value -> completion value)
    (e : thrown) :
  (forall x e', access x = Throw e' -> wrapped e') ->
  optional_chain v access = Throw e -> wrapped e.
Proof. intros Haccess. destruct v; simpl; try discriminate; apply Haccess. Qed.

Lemma choices_0_message_content_throws (data : value) (e : thrown) :
  choices_0_message_content data = Throw e -> wrapped e.
Proof.
  unfold choices_0_message_content.
  destruct (Get data P_choices) as [e1 | choices] eqn:E1; cbn [completion_bind].
  { intros H. injection H as <-. exact (Get_throws _ _ _ E1). }
  destruct (optional_chain choices Get_index0) as [e2 | choice] eqn:E2;
    cbn [completion_bind].
  { intros H. injection H as <-.
    exact (optional_chain_throws _ _ _ Get_index0_throws E2). }
  destruct (optional_chain choice (fun c => Get c P_message)) as [e3 | msg] eqn:E3;
    cbn [completion_bind].
  { intros H. injection H as <-.
    exact (optional_chain_throws _ _ _ (fun x e' => Get_throws x P_message e') E3). }
  apply optional_chain_throws. intros x e'. apply Get_throws.
Qed.

Lemma call_trim_throws (v : value) (e : thrown) :
  call_trim v = Throw e -> wrapped e.
Proof.
  destruct v; simpl; try discriminate; intros H; injection H as <-;
    repeat split.
Qed.

Lemma call_trim_returns (v : value) (s : jsstring) :
  call_trim v = Normal s -> exists content, v = VString content /\ s = trim content.
Proof.
  destruct v; simpl; try discriminate. intros H. injection H as <-. now eexists.
Qed.

Lemma caught_wrapped (e : thrown) :
  wrapped e ->
  exists shown,
    caught (Throw e) = fails (lit "Unexpected error: " ++ shown) API_ERROR.
Proof.
  intros [H1 [H2 H3]]. unfold caught, classify. rewrite H1, H2.
  destruct e; try discriminate; eexists; reflexivity.
Qed.

(** What the [catch] clause makes of an exception: an [LLMError], or, for
    a value [String] cannot convert, the exception of the conversion. *)
Lemma caught_thrown (e : thrown) :
  (exists msg c, caught (Throw e) = fails msg c)
  \/ (exists raised, e = ThrownUnprintable raised /\ caught (Throw e) = Throw raised).
Proof.
  unfold caught, classify.
  destruct e as [[msg c] | cls msg | rendering | raised];
    cbn [instanceof_LLMError].
  - left. now exists msg, c.
  - left. destruct (is_fetch_TypeError (ThrownError cls msg));
      eexists; eexists; reflexivity.
  - left. eexists; eexists; reflexivity.
  - right. now exists raised.
Qed.

Lemma caught_throw (e : thrown) : exists e', caught (Throw e) = Throw e'.
Proof.
  destruct (caught_thrown e) as [[msg [c ->]] | [raised [_ ->]]]; now eexists.
Qed.

Lemma caught_normal (c : completion jsstring) (s : jsstring) :
  caught c = Normal s -> c = Normal s.
Proof.
  destruct c as [e | s']; [| exact (fun H => H)].
  destruct (caught_throw e) as [e' ->]. discriminate.
Qed.

(** What the handling of a parsed body settles to, before the [catch]. *)
Lemma body_outcome (response : Response) (data : value) :
  ok response = true ->
  json response = Normal data ->
  (exists e, snd (interpret response []) = Throw e /\ wrapped e)
  \/ (exists msg, snd (interpret response []) = fails msg API_ERROR
                  /\ exists data_error, Get data P_error = Normal data_error
                                        /\ truthy data_error = true)
  \/ (snd (interpret response []) = fails invalid_response_message INVALID_RESPONSE
      /\ exists content, choices_0_message_content data = Normal content
                         /\ truthy content = false)
  \/ (exists data_error content,
         Get data P_error = Normal data_error /\ truthy data_error = false
         /\ choices_0_message_content data = Normal (VString content)
         /\ content <> []
         /\ snd (interpret response []) = Normal (trim content)).
Proof.
  intros Hok Hjson. unfold interpret.
  destruct (ok_excludes_429_401 response Hok) as [-> ->].
  rewrite Hok. simpl negb. cbv iota.
  unfold async_bind, await, evaluate. rewrite Hjson.
  destruct (Get data P_error) as [e | data_error] eqn:Herr.
  { left. exists e. split; [reflexivity | exact (Get_throws _ _ _ Herr)]. }
  destruct (truthy data_error) eqn:Htruthy.
  - destruct (Get data_error P_message) as [e | m] eqn:Hm.
    { left. exists e. split; [reflexivity | exact (Get_throws _ _ _ Hm)]. }
    destruct (ToString m) as [e | shown] eqn:Hshown.
    { left. exists e. split; [reflexivity |].
      apply ToString_throws in Hshown as ->. repeat split. }
    right. left. eexists. split; [reflexivity | now exists data_error].
  - destruct (choices_0_message_content data) as [e | content] eqn:Hcontent.
    { left. exists e. split; [reflexivity |].
      exact (choices_0_message_content_throws _ _ Hcontent). }
    destruct (truthy content) eqn:Hc; simpl negb; cbv iota.
    + destruct (call_trim content) as [e | s] eqn:Htrim.
      { left. exists e. split; [reflexivity | exact (call_trim_throws _ _ Htrim)]. }
      right. right. right.
      apply call_trim_returns in Htrim as [text [-> ->]].
      exists data_error, text.
      split; [assumption || reflexivity |].
      split; [assumption || reflexivity |].
      split; [assumption || reflexivity |].
      split; [| reflexivity].
      intros ->. discriminate Hc.
    + right. right. left. split; [reflexivity | now exists content].
Qed.

End BodyExceptions.

(** ** Where each outcome comes from *)

Section Origins.

Variables (settings : WorkspaceConfiguration) (net : Transport).
Variables (rawPrompt : jsstring) (log : list FetchCall).

Lemma key_blank_or_configured :
  whitespace_only (apiKey (getConfig settings))
  \/ trim (apiKey (getConfig settings)) <> [].
Proof.
  destruct (trim (apiKey (getConfig settings))) eqn:E.
  - left. now apply trim_nil.
  - right. discriminate.
Qed.

Lemma blank_key_outcome :
  whitespace_only (apiKey (getConfig settings)) ->
  refactorPrompt settings net rawPrompt log
  = (log, fails no_api_key_message NO_API_KEY).
Proof.
  intros Hws. unfold refactorPrompt, async_bind, evaluate.
  now rewrite (validateApiKey_blank _ Hws).
Qed.

(** The ways the [try] block ends for a response. *)
Lemma interpret_cases (response : Response) :
  (status response = 429%Z
   /\ exists msg, snd (interpret response []) = fails msg RATE_LIMIT)
  \/ (status response = 401%Z
      /\ snd (interpret response []) = fails invalid_api_key_message NO_API_KEY)
  \/ ((status response < 200 \/ 299 < status response)%Z
      /\ status response <> 429%Z /\ status response <> 401%Z
      /\ ((exists e, text response = Throw e
                     /\ snd (interpret response []) = Throw e)
          \/ (exists msg, snd (interpret response []) = fails msg API_ERROR)))
  \/ (ok response = true
      /\ ((exists e, json response = Throw e
                     /\ snd (interpret response []) = Throw e)
          \/ (exists data, json response = Normal data))).
Proof.
  unfold interpret.
  destruct (Z.eqb_spec (status response) 429) as [H429 | H429].
  { left. split; [exact H429 |]. eexists. reflexivity. }
  destruct (Z.eqb_spec (status response) 401) as [H401 | H401].
  { right. left. split; [exact H401 | reflexivity]. }
  destruct (ok response) eqn:Hok; simpl negb; cbv iota.
  - right. right. right. split; [reflexivity |].
    unfold async_bind, await.
    destruct (json response) as [e | data]; [left | right]; now eexists.
  - right. right. left.
    assert (Hrange : (status response < 200 \/ 299 < status response)%Z).
    { unfold ok in Hok. apply andb_false_iff in Hok as [H | H];
        apply Z.leb_gt in H; lia. }
    repeat (split; [assumption |]).
    unfold async_bind, await.
    destruct (text response) as [e | errorBody]; [left | right]; now eexists.
Qed.

(** The three ways a run can end. *)
Lemma refactorPrompt_outcomes :
  (exists refactored,
      snd (refactorPrompt settings net rawPrompt log) = Normal refactored)
  \/ (exists msg c,
         snd (refactorPrompt settings net rawPrompt log) = fails msg c)
  \/ (exists raised,
         raises net (the_call settings rawPrompt) (ThrownUnprintable raised)
         /\ snd (refactorPrompt settings net rawPrompt log) = Throw raised).
Proof.
  assert (Hcaught : forall e,
             raises net (the_call settings rawPrompt) e ->
             (exists msg c, caught (Throw e) = fails msg c)
             \/ (exists raised,
                    raises net (the_call settings rawPrompt)
                      (ThrownUnprintable raised)
                    /\ caught (Throw e) = Throw raised)).
  { intros e Hraised.
    destruct (caught_thrown e) as [Hfails | [raised [-> Hout]]];
      [now left | right; now exists raised]. }
  destruct key_blank_or_configured as [Hws | Hset].
  { right. left. rewrite (blank_key_outcome Hws). now eexists; eexists. }
  rewrite (refactorPrompt_run _ _ _ _ Hset).
  destruct (net (the_call settings rawPrompt)) as [e | response] eqn:Hnet.
  { right. apply Hcaught. now constructor. }
  destruct (interpret_cases response)
    as [[_ [m Hm]] | [[_ Hm] | [[Hrange [N429 [N401 Htext]]] | [Hok Hjson]]]].
  - right. left. rewrite Hm. now exists m, RATE_LIMIT.
  - right. left. rewrite Hm. now eexists; eexists.
  - right. destruct Htext as [[e [Htext Hm]] | [m Hm]]; rewrite Hm.
    + apply Hcaught. now apply (raised_by_text _ _ _ response).
    + left. now exists m, API_ERROR.
  - destruct Hjson as [[e [Hjson Hm]] | [data Hjson]].
    + right. rewrite Hm. apply Hcaught. now apply (raised_by_json _ _ _ response).
    + destruct (body_outcome response data Hok Hjson)
        as [[e [Hm He]] | [[m [Hm _]] | [[Hm _] | [data_error [content Hm]]]]].
      * right. left. rewrite Hm. destruct (caught_wrapped e He) as [shown ->].
        now eexists; eexists.
      * right. left. rewrite Hm. now exists m, API_ERROR.
      * right. left. rewrite Hm. now eexists; eexists.
      * left. destruct Hm as [_ [_ [_ [_ ->]]]]. now eexists.
Qed.


(** X2. A run calls the transport at most once, whatever the transport
    answers: not at all when the key is blank, and otherwise exactly once,
    by POST to the configured endpoint, with the JSON content type, the key
    as bearer token and the serialized request as body. *)
Theorem one_call_with_a_key_none_without :
  (whitespace_only (apiKey (getConfig settings)) ->
   fst (refactorPrompt settings net rawPrompt []) = [])
  /\ (~ whitespace_only (apiKey (getConfig settings)) ->
      fst (refactorPrompt settings net rawPrompt [])
      = [ {| url := apiEndpoint (getConfig settings);
             init :=
               {| method := lit "POST";
                  headers :=
                    [ (lit "Content-Type", lit "application/json");
                      (lit "Authorization",
                       lit "Bearer " ++ apiKey (getConfig settings)) ];
                  body := Some (wire_body (getConfig settings) rawPrompt) |} |} ]).
Proof.
  split; intros Hkey.
  - now rewrite calls_made, (validateApiKey_blank _ Hkey).
  - destruct key_blank_or_configured as [Hws | Hset]; [now elim Hkey |].
    now rewrite calls_made, (validateApiKey_set _ Hset).
Qed.

Lemma success_origin (refactored : jsstring) :
  snd (refactorPrompt settings net rawPrompt log) = Normal refactored ->
  trim (apiKey (getConfig settings)) <> []
  /\ exists response data data_error content,
       net (the_call settings rawPrompt) = Normal response
       /\ ok response = true
       /\ json response = Normal data
       /\ Get data P_error = Normal data_error
       /\ truthy data_error = false
       /\ choices_0_message_content data = Normal (VString content)
       /\ content <> []
       /\ refactored = trim content.
Proof.
  destruct key_blank_or_configured as [Hws | Hset].
  { rewrite (blank_key_outcome Hws). discriminate. }
  rewrite (refactorPrompt_run _ _ _ _ Hset).
  destruct (net (the_call settings rawPrompt)) as [e | response] eqn:Hnet;
    cbn [snd]; intros H; apply caught_normal in H; [discriminate |].
  split; [exact Hset |].
  destruct (interpret_cases response)
    as [[_ [m Hm]] | [[_ Hm] | [[_ [_ [_ [[e [_ Hm]] | [m Hm]]]]]
                               | [Hok [[e [_ Hm]] | [data Hjson]]]]]];
    try (rewrite Hm in H; discriminate).
  destruct (body_outcome response data Hok Hjson)
    as [[e [Hm _]] | [[m [Hm _]] | [[Hm _] | [data_error [content Hm]]]]];
    try (rewrite Hm in H; discriminate).
  destruct Hm as [Herr [Hfalsy [Hcontent [Hne Hout]]]].
  exists response, data, data_error, content.
  rewrite Hout in H. injection H as <-.
  repeat (split; [first [assumption | reflexivity] |]).
  reflexivity.
Qed.

(** X3. A run succeeds only on a 2xx response whose JSON body has no truthy
    [error] and a non-empty string as [choices[0].message.content]; what it
    returns is that string trimmed. *)
Theorem success_means_nonempty_string_content (refactored : jsstring) :
  snd (refactorPrompt settings net rawPrompt log) = Normal refactored ->
  trim (apiKey (getConfig settings)) <> []
  /\ exists response data data_error content,
       net (the_call settings rawPrompt) = Normal response
       /\ ok response = true
       /\ json response = Normal data
       /\ Get data P_error = Normal data_error
       /\ truthy data_error = false
       /\ choices_0_message_content data = Normal (VString content)
       /\ content <> []
       /\ refactored = trim content.
Proof. exact (success_origin refactored). Qed.

(** X4. The text a run returns never starts and never ends with white
    space, so trimming it again changes nothing. *)
Theorem returned_text_is_trimmed (refactored : jsstring) :
  snd (refactorPrompt settings net rawPrompt log) = Normal refactored ->
  (forall c rest, refactored = c :: rest -> is_white_space c = false)
  /\ (forall front c, refactored = front ++ [c] -> is_white_space c = false)
  /\ trim refactored = refactored.
Proof.
  intros H. apply success_origin in H
    as [_ [response [data [data_error [content H]]]]].
  destruct H as [_ [_ [_ [_ [_ [_ [_ ->]]]]]]]. repeat split.
  - intros c rest E. exact (trim_head _ _ _ E).
  - intros front c E. exact (trim_last _ _ _ E).
  - apply trim_idempotent.
Qed.

End Origins.

Section Causes.

Variables (settings : WorkspaceConfiguration) (net : Transport).
Variables (rawPrompt : jsstring) (log : list FetchCall).

(** X5. Once a 2xx response has been parsed, whatever JSON value the body
    is, the run ends in a text, in [INVALID_RESPONSE] or in [API_ERROR]: a
    body of an unforeseen shape is never reported as a missing key, a rate
    limit or a network failure. *)
Theorem parsed_body_gives_text_or_invalid_or_api_error
    (response : Response) (data : value) :
  trim (apiKey (getConfig settings)) <> [] ->
  net (the_call settings rawPrompt) = Normal response ->
  ok response = true ->
  json response = Normal data ->
  (exists refactored,
      snd (refactorPrompt settings net rawPrompt log) = Normal refactored)
  \/ snd (refactorPrompt settings net rawPrompt log)
     = fails invalid_response_message INVALID_RESPONSE
  \/ (exists msg,
         snd (refactorPrompt settings net rawPrompt log) = fails msg API_ERROR).
Proof.
  intros Hkey Hnet Hok Hjson.
  rewrite (refactorPrompt_answered _ _ _ _ _ Hkey Hnet).
  destruct (body_outcome response data Hok Hjson)
    as [[e [-> He]] | [[m [-> _]] | [[-> _] | [data_error [content Hm]]]]].
  - right. right. destruct (caught_wrapped e He) as [shown ->]. now eexists.
  - right. right. now exists m.
  - right. left. reflexivity.
  - left. destruct Hm as [_ [_ [_ [_ ->]]]]. now eexists.
Qed.

(** X6. The code of an error names its cause.  Unless the very error was
    raised as an [LLMError] by the transport or a body reader, or by the
    [String] conversion of a value one of them raised:
    [NO_API_KEY] means a blank key or a response with status 401;
    [RATE_LIMIT] means a response with status 429; [NETWORK_ERROR] means
    that the transport or a body reader raised a [TypeError] that mentions
    [fetch]; [INVALID_RESPONSE] means a parsed 2xx response whose
    [choices[0].message.content] is falsy. *)
Theorem error_code_names_its_cause (msg : jsstring) (c : LLMErrorCode) :
  snd (refactorPrompt settings net rawPrompt log) = fails msg c ->
  raises net (the_call settings rawPrompt)
    (ThrownLLMError {| message := msg; code := c |})
  \/ raises net (the_call settings rawPrompt)
       (ThrownUnprintable (ThrownLLMError {| message := msg; code := c |}))
  \/ match c with
     | NO_API_KEY =>
         whitespace_only (apiKey (getConfig settings))
         \/ exists response,
              net (the_call settings rawPrompt) = Normal response
              /\ status response = 401%Z
     | RATE_LIMIT =>
         exists response,
           net (the_call settings rawPrompt) = Normal response
           /\ status response = 429%Z
     | NETWORK_ERROR =>
         exists e,
           raises net (the_call settings rawPrompt) e /\ connection_failure e
     | INVALID_RESPONSE =>
         exists response data content,
           net (the_call settings rawPrompt) = Normal response
           /\ ok response = true
           /\ json response = Normal data
           /\ choices_0_message_content data = Normal content
           /\ truthy content = false
     | API_ERROR => True
     end.
Proof.
  assert (Hfinish : forall e,
             raises net (the_call settings rawPrompt) e ->
             caught (Throw e) = fails msg c ->
             raises net (the_call settings rawPrompt)
               (ThrownLLMError {| message := msg; code := c |})
             \/ raises net (the_call settings rawPrompt)
                  (ThrownUnprintable
                     (ThrownLLMError {| message := msg; code := c |}))
             \/ match c with
     | NO_API_KEY =>
         whitespace_only (apiKey (getConfig settings))
         \/ exists response,
              net (the_call settings rawPrompt) = Normal response
              /\ status response = 401%Z
     | RATE_LIMIT =>
         exists response,
           net (the_call settings rawPrompt) = Normal response
           /\ status response = 429%Z
     | NETWORK_ERROR =>
         exists e,
           raises net (the_call settings rawPrompt) e /\ connection_failure e
     | INVALID_RESPONSE =>
         exists response data content,
           net (the_call settings rawPrompt) = Normal response
           /\ ok response = true
           /\ json response = Normal data
           /\ choices_0_message_content data = Normal content
           /\ truthy content = false
     | API_ERROR => True
     end).
  { intros e Hraised. unfold caught, classify.
    destruct (instanceof_LLMError e) eqn:Hllm.
    - destruct e as [[m k] | | |]; try discriminate.
      intros H. injection H as -> ->. now left.
    - destruct (is_fetch_TypeError e) eqn:Hfetch.
      + intros H. injection H as _ <-. right. right.
        exists e. split; [exact Hraised | now apply is_fetch_TypeError_true].
      + destruct e as [x | cls m | rendering | raised].
        * discriminate Hllm.
        * simpl. intros H. injection H as _ <-. right. right. exact I.
        * simpl. intros H. injection H as _ <-. right. right. exact I.
        * simpl. intros H. unfold fails in H. injection H as ->.
          right. left. exact Hraised. }
  destruct (key_blank_or_configured settings) as [Hws | Hset].
  { rewrite (blank_key_outcome settings net rawPrompt log Hws).
    intros H. injection H as _ <-. right. right. now left. }
  rewrite (refactorPrompt_run _ _ _ _ Hset).
  destruct (net (the_call settings rawPrompt)) as [e | response] eqn:Hnet;
    cbn [snd].
  { apply Hfinish. now constructor. }
  destruct (interpret_cases response)
    as [[H429 [m Hm]] | [[H401 Hm] | [[Hrange [N429 [N401 Htext]]]
                                     | [Hok Hjson]]]].
  - rewrite Hm. intros H. injection H as _ <-. right. right. now exists response.
  - rewrite Hm. intros H. injection H as _ <-. right. right. right.
    now exists response.
  - destruct Htext as [[e [Htext Hm]] | [m Hm]]; rewrite Hm.
    + apply Hfinish. now apply (raised_by_text _ _ _ response).
    + intros H. injection H as _ <-. right. right. exact I.
  - destruct Hjson as [[e [Hjson Hm]] | [data Hjson]].
    + rewrite Hm. apply Hfinish. now apply (raised_by_json _ _ _ response).
    + destruct (body_outcome response data Hok Hjson)
        as [[e [Hm He]] | [[m [Hm _]] | [[Hm [content [Hc Hfalsy]]]
                                        | [data_error [content Hm]]]]].
      * rewrite Hm. destruct (caught_wrapped e He) as [shown ->].
        intros H. injection H as _ <-. right. right. exact I.
      * rewrite Hm. intros H. injection H as _ <-. right. right. exact I.
      * rewrite Hm. intros H. injection H as _ <-. right. right.
        now exists response, data, content.
      * destruct Hm as [_ [_ [_ [_ Hm]]]]. rewrite Hm. discriminate.
Qed.

(** X7. Whatever truthy value [data.error] holds in the body of a 2xx
    response (an object with or without a message, a string, a number, an
    array), and whatever else the body holds, the run fails with
    [API_ERROR]. *)
Theorem any_truthy_error_is_api_error
    (response : Response) (data data_error : value) :
  trim (apiKey (getConfig settings)) <> [] ->
  net (the_call settings rawPrompt) = Normal response ->
  ok response = true ->
  json response = Normal data ->
  Get data P_error = Normal data_error ->
  truthy data_error = true ->
  exists msg,
    snd (refactorPrompt settings net rawPrompt log) = fails msg API_ERROR.
Proof.
  intros Hkey Hnet Hok Hjson.
  exact (truthy_error_is_api_error settings net rawPrompt log response data
           Hkey Hnet Hok Hjson data_error).
Qed.

(** X8. With no [apiKey] in the settings the key defaults to the empty
    string: the run fails with [NO_API_KEY] before any call, whatever the
    other settings are. *)
Theorem unset_api_key_fails_before_any_call :
  setting_apiKey settings = None ->
  refactorPrompt settings net rawPrompt log
  = (log, fails no_api_key_message NO_API_KEY).
Proof.
  intros Hunset. apply blank_key_outcome.
  unfold getConfig. simpl apiKey. rewrite Hunset. constructor.
Qed.

End Causes.

(** * The panel *)

Section Panel.

Variable env : Environment.

Lemma service_run (rawPrompt : jsstring) (trace : list HostCall) :
  service (refactorPrompt (env_settings env) (env_net env) rawPrompt) trace
  = (trace
       ++ map Fetch
            (fst (refactorPrompt (env_settings env) (env_net env) rawPrompt [])),
     snd (refactorPrompt (env_settings env) (env_net env) rawPrompt [])).
Proof.
  unfold service.
  now destruct (refactorPrompt (env_settings env) (env_net env) rawPrompt []).
Qed.

Lemma truthy_trim (s : jsstring) :
  truthy (VString (trim s)) = false <-> whitespace_only s.
Proof.
  simpl. rewrite jsstring_eqb_nil, <- trim_nil_iff.
  destruct (trim s); simpl; split; congruence.
Qed.

(** X9. A prompt that is empty or white space only is refused by the panel
    itself: one [error] message asks for a prompt, and nothing else happens
    (no loading indicator, no request). *)
Theorem blank_prompt_is_refused_by_the_panel
    (rawPrompt : jsstring) (trace : list HostCall) :
  whitespace_only rawPrompt ->
  handleRefactor env rawPrompt trace
  = (trace ++ [PostMessage (ErrorMessage enter_a_prompt_message false)],
     Normal tt).
Proof.
  intros Hblank. unfold handleRefactor.
  rewrite (proj2 (truthy_trim rawPrompt) Hblank). reflexivity.
Qed.

Lemma handleRefactor_on_prompt
    (rawPrompt : jsstring) (trace : list HostCall) :
  ~ whitespace_only rawPrompt ->
  exists answer,
    handleRefactor env rawPrompt trace
    = (trace
         ++ [PostMessage (LoadingMessage true)]
         ++ map Fetch
              (fst (refactorPrompt (env_settings env) (env_net env) rawPrompt []))
         ++ [PostMessage answer; PostMessage (LoadingMessage false)],
       Normal tt)
    /\ ((exists refactored,
            snd (refactorPrompt (env_settings env) (env_net env) rawPrompt [])
            = Normal refactored
            /\ answer = ResultMessage refactored)
        \/ (exists msg c,
               snd (refactorPrompt (env_settings env) (env_net env) rawPrompt [])
               = fails msg c
               /\ answer = ErrorMessage msg
                             match c with NO_API_KEY => true | _ => false end)
        \/ (exists raised,
               raises (env_net env) (the_call (env_settings env) rawPrompt)
                 (ThrownUnprintable raised)
               /\ snd (refactorPrompt (env_settings env) (env_net env) rawPrompt [])
                  = Throw raised
               /\ instanceof_LLMError raised = false
               /\ answer = ErrorMessage unexpected_error_message false)).
Proof.
  intros Hprompt.
  assert (Htruthy : truthy (VString (trim rawPrompt)) = true).
  { destruct (truthy (VString (trim rawPrompt))) eqn:E; [reflexivity |].
    elim Hprompt. now apply truthy_trim. }
  unfold handleRefactor. rewrite Htruthy. cbv beta iota delta [negb].
  unfold ui_bind at 1, unawaited at 1, ui_finally, ui_try_catch, ui_bind.
  rewrite service_run.
  assert (Hout :
            (exists refactored,
                snd (refactorPrompt (env_settings env) (env_net env) rawPrompt [])
                = Normal refactored)
            \/ (exists msg c,
                   snd (refactorPrompt (env_settings env) (env_net env)
                          rawPrompt [])
                   = fails msg c)
            \/ (exists raised,
                   raises (env_net env) (the_call (env_settings env) rawPrompt)
                     (ThrownUnprintable raised)
                   /\ snd (refactorPrompt (env_settings env) (env_net env)
                             rawPrompt [])
                      = Throw raised
                   /\ instanceof_LLMError raised = false)).
  { destruct (refactorPrompt_outcomes
                (env_settings env) (env_net env) rawPrompt [])
      as [Hrun | [Hrun | [raised [Hraised Hrun]]]]; [now left | now auto |].
    destruct (instanceof_LLMError raised) eqn:Hllm.
    - destruct raised as [[msg c] | | |]; try discriminate.
      right. left. now exists msg, c.
    - right. right. now exists raised. }
  destruct Hout
    as [[refactored Hrun] | [[msg [c Hrun]] | [raised [Hraised [Hrun Hllm]]]]];
    rewrite Hrun.
  - exists (ResultMessage refactored). split.
    + unfold unawaited. rewrite <- !app_assoc. reflexivity.
    + left. now exists refactored.
  - exists (ErrorMessage msg match c with NO_API_KEY => true | _ => false end).
    split.
    + unfold fails. cbn [message code].
      destruct c; unfold unawaited; rewrite <- !app_assoc; reflexivity.
    + right. left. now exists msg, c.
  - exists (ErrorMessage unexpected_error_message false). split.
    + destruct raised as [x | cls msg | rendering | deeper];
        [discriminate Hllm | | |];
        unfold unawaited; rewrite <- !app_assoc; reflexivity.
    + right. right. now exists raised.
Qed.


(** X11. A message of the webview with an unknown command, and a
    [copyToClipboard] or [openInEditor] message whose text is missing or
    empty, make no call on the host at all. *)
Theorem idle_messages_make_no_call (m : WebviewMessage) (trace : list HostCall) :
  (command m <> lit "refactor" /\ command m <> lit "copyToClipboard"
   /\ command m <> lit "openInEditor" /\ command m <> lit "openSettings")
  \/ ((command m = lit "copyToClipboard" \/ command m = lit "openInEditor")
      /\ (message_text m = None \/ message_text m = Some [])) ->
  handleMessage env m trace = (trace, Normal tt).
Proof.
  assert (Hneq : forall a b, a <> b -> jsstring_eqb a b = false).
  { intros a b Hab. destruct (jsstring_eqb a b) eqn:E; [| reflexivity].
    elim Hab. now apply jsstring_eqb_eq. }
  unfold handleMessage.
  intros [[H1 [H2 [H3 H4]]] | [Hcommand Htext]].
  - now rewrite (Hneq _ _ H1), (Hneq _ _ H2), (Hneq _ _ H3), (Hneq _ _ H4).
  - assert (Hno : has_text (message_text m) = false)
      by (destruct Htext as [-> | ->]; reflexivity).
    destruct Hcommand as [-> | ->]; simpl jsstring_eqb; cbv iota;
      now rewrite Hno.
Qed.

(** X12. On [copyToClipboard] with a text the panel writes exactly that
    text to the clipboard; the notice that it was copied is shown only once
    the write has resolved, and a rejected write leaves the handler
    rejected with nothing more done. *)
Theorem panel_copies_then_confirms
    (content : jsstring) (trace : list HostCall) :
  content <> [] ->
  let m := {| command := lit "copyToClipboard"; message_text := Some content |} in
  (forall answer,
      env_host env trace (ClipboardWriteText content) = Normal answer ->
      handleMessage env m trace
      = (trace
           ++ [ ClipboardWriteText content;
                ShowInformationMessage
                  (lit "Refactored prompt copied to clipboard!") [] ],
         Normal tt))
  /\ (forall e,
         env_host env trace (ClipboardWriteText content) = Throw e ->
         handleMessage env m trace
         = (trace ++ [ClipboardWriteText content], Throw e)).
Proof.
  intros Hne m.
  assert (Htext : has_text (Some content) = true).
  { destruct content; [now elim Hne | reflexivity]. }
  unfold handleMessage, m. cbn [command message_text].
  change (jsstring_eqb (lit "copyToClipboard") (lit "refactor")) with false.
  change (jsstring_eqb (lit "copyToClipboard") (lit "copyToClipboard")) with true.
  rewrite Htext. cbv beta iota. cbn [text_or_empty].
  unfold ui_bind, awaited, unawaited.
  split; [intros answer -> | intros e ->].
  - now rewrite <- app_assoc.
  - reflexivity.
Qed.

End Panel.

(** * The commands of the extension *)

Section Commands.

Variable env : Environment.

Lemma is_item_true (answer : option jsstring) (item : string) :
  is_item answer item = true -> answer = Some (lit item).
Proof.
  destruct answer as [s |]; simpl; [| discriminate].
  intros H. apply jsstring_eqb_eq in H. now subst.
Qed.

Lemma blank_selection_test (s : jsstring) :
  negb (truthy (VString s)) || jsstring_eqb (trim s) [] = true
  <-> whitespace_only s.
Proof.
  rewrite <- trim_nil_iff. split.
  - intros H. apply orb_true_iff in H as [H | H].
    + simpl in H. rewrite jsstring_eqb_nil in H.
      destruct s; [reflexivity | discriminate].
    + now apply jsstring_eqb_eq.
  - intros ->. apply orb_true_r.
Qed.

Lemma command_without_selection (trace : list HostCall) :
  (activeTextEditor env = None ->
   handleRefactorSelectedPrompt env trace
   = (trace
        ++ [ShowWarningMessage
              (lit "No active editor found. Please open a file first.") false []],
      Normal tt))
  /\ (forall editor,
         activeTextEditor env = Some editor ->
         whitespace_only (selected_text editor) ->
         handleRefactorSelectedPrompt env trace
         = (trace
              ++ [ShowWarningMessage
                    (lit "Please select some text to refactor.") false []],
            Normal tt)).
Proof.
  unfold handleRefactorSelectedPrompt. split.
  - intros ->. reflexivity.
  - intros editor -> Hblank.
    apply blank_selection_test in Hblank. unfold selected_text in Hblank.
    rewrite Hblank. reflexivity.
Qed.

(** X13. Without an active editor, and with a selection that is empty or
    white space only, the command shows one warning and does nothing else:
    no progress notification, no request, no edit. *)
Theorem command_needs_an_editor_and_a_selection (trace : list HostCall) :
  (activeTextEditor env = None ->
   handleRefactorSelectedPrompt env trace
   = (trace
        ++ [ShowWarningMessage
              (lit "No active editor found. Please open a file first.") false []],
      Normal tt))
  /\ (forall editor,
         activeTextEditor env = Some editor ->
         whitespace_only (selected_text editor) ->
         handleRefactorSelectedPrompt env trace
         = (trace
              ++ [ShowWarningMessage
                    (lit "Please select some text to refactor.") false []],
            Normal tt)).
Proof. exact (command_without_selection trace). Qed.



(** The run of the command on a selection that is not blank. *)
Lemma command_on_selection (editor : TextEditor) (trace : list HostCall) :
  activeTextEditor env = Some editor ->
  ~ whitespace_only (selected_text editor) ->
  handleRefactorSelectedPrompt env trace
  = let started :=
      trace ++ [progress_notification] ++ map Fetch (fst (command_run env editor)) in
    match snd (command_run env editor) with
    | Normal refactoredPrompt =>
        ui_try_catch
          (showRefactoredPrompt (env_host env) editor (selection editor)
             refactoredPrompt)
          (handleError (env_host env)) started
    | Throw e => handleError (env_host env) e started
    end.
Proof.
  intros Heditor Hselection. unfold handleRefactorSelectedPrompt.
  rewrite Heditor. cbv zeta. fold (selected_text editor).
  destruct (negb (truthy (VString (selected_text editor)))
            || jsstring_eqb (trim (selected_text editor)) []) eqn:Hblank.
  { elim Hselection. now apply blank_selection_test. }
  unfold ui_bind at 1, unawaited at 1, ui_try_catch, ui_bind.
  rewrite service_run. fold (command_run env editor).
  unfold progress_notification. rewrite <- app_assoc.
  destruct (snd (command_run env editor)); reflexivity.
Qed.

(** X15. When the service fails, the command shows exactly one dialog and
    touches nothing: a warning for [RATE_LIMIT], an error for the other
    codes, each with the message of the error after "PromptLint: ".  Only
    for [NO_API_KEY] does the dialog offer "Open Settings", and only when
    the user picks it are the settings opened, at [promptlint.apiKey]. *)
Theorem failed_run_shows_one_dialog
    (editor : TextEditor) (trace : list HostCall)
    (msg : jsstring) (c : LLMErrorCode) :
  activeTextEditor env = Some editor ->
  ~ whitespace_only (selected_text editor) ->
  snd (command_run env editor) = fails msg c ->
  let started :=
    trace ++ [progress_notification] ++ map Fetch (fst (command_run env editor)) in
  handleRefactorSelectedPrompt env trace
  = (started
       ++ [error_dialog msg c]
       ++ match c with
          | NO_API_KEY =>
              if chose (env_host env started (error_dialog msg c)) "Open Settings"
              then [ExecuteCommand (lit "workbench.action.openSettings")
                      (lit "promptlint.apiKey")]
              else []
          | _ => []
          end,
     Normal tt).
Proof.
  intros Heditor Hselection Hrun started.
  rewrite (command_on_selection editor trace Heditor Hselection).
  cbv zeta. fold started. rewrite Hrun. unfold fails, handleError.
  cbn [code message].
  destruct c; try reflexivity.
  unfold detached, showApiKeyError, ui_bind, awaited, error_dialog, chose.
  destruct (env_host env started _) as [e | answer]; [reflexivity |].
  destruct (is_item answer "Open Settings"); cbn [fst].
  - destruct (env_host env _ _); now rewrite <- app_assoc.
  - reflexivity.
Qed.

(** A call that hands text to the user's document, clipboard or a new
    tab, with what the service, the user and the host did before it. *)
Lemma showRefactoredPrompt_calls
    (editor : TextEditor) (refactored : jsstring) (trace : list HostCall)
    (call : HostCall) :
  In call (fst (showRefactoredPrompt (env_host env) editor (selection editor)
                  refactored trace)) ->
  In call trace
  \/ match call with
     | EditReplace range newText =>
         range = selection editor /\ newText = refactored
         /\ (exists before,
                env_host env before refactored_dialog
                = Normal (Some (lit "Replace Selection")))
         /\ (exists before,
                env_host env before confirm_dialog
                = Normal (Some (lit "Yes, Replace")))
     | ClipboardWriteText content =>
         content = refactored
         /\ exists before,
              env_host env before refactored_dialog
              = Normal (Some (lit "Copy to Clipboard"))
     | OpenTextDocument content language
     | ShowTextDocument content language _ =>
         content = refactored /\ language = lit "markdown"
         /\ exists before,
              env_host env before refactored_dialog
              = Normal (Some (lit "Open in New Tab"))
     | ShowInformationMessage _ _ | ShowWarningMessage _ _ _ => True
     | _ => False
     end.
Proof.
  unfold showRefactoredPrompt, ui_bind at 1, awaited at 1.
  fold refactored_dialog.
  destruct (env_host env trace refactored_dialog) as [e | choice] eqn:Hchoice.
  { cbn [fst]. intros H. apply in_app_iff in H as [H | [<- | []]];
      [now left | right; exact I]. }
  destruct (is_item choice "Replace Selection") eqn:Hreplace.
  { apply is_item_true in Hreplace. subst choice.
    unfold replaceSelection, ui_bind at 1, awaited at 1. fold confirm_dialog.
    destruct (env_host env (trace ++ [refactored_dialog]) confirm_dialog)
      as [e | confirm] eqn:Hconfirm.
    { cbn [fst]. intros H. rewrite !in_app_iff in H. cbn [In] in H.
      destruct H as [[H | [<- | []]] | [<- | []]];
        [now left | right; exact I | right; exact I]. }
    destruct (is_item confirm "Yes, Replace") eqn:Hyes.
    - apply is_item_true in Hyes. subst confirm.
      unfold ui_bind, awaited, unawaited.
      destruct (env_host env _ (EditReplace _ _)); cbn [fst]; intros H;
        rewrite !in_app_iff in H; cbn [In] in H;
        repeat match goal with
               | H : _ \/ _ |- _ => destruct H as [H | H]
               | H : False |- _ => destruct H
               end;
        try (now left); subst call; right; try exact I;
        (split; [reflexivity |]; split; [reflexivity |]; split; eexists; eassumption).
    - unfold ui_return. cbn [fst]. intros H. rewrite !in_app_iff in H.
      cbn [In] in H.
      destruct H as [[H | [<- | []]] | [<- | []]];
        [now left | right; exact I | right; exact I]. }
  destruct (is_item choice "Open in New Tab") eqn:Htab.
  { apply is_item_true in Htab. subst choice.
    unfold openInNewTab, ui_bind, awaited, ui_return.
    destruct (env_host env _ (OpenTextDocument _ _)); cbn [fst];
      [| destruct (env_host env _ (ShowTextDocument _ _ _)); cbn [fst]];
      intros H; rewrite !in_app_iff in H; cbn [In] in H;
      repeat match goal with
             | H : _ \/ _ |- _ => destruct H as [H | H]
             | H : False |- _ => destruct H
             end;
      try (now left); subst call; right; try exact I;
      (split; [reflexivity |]; split; [reflexivity |]; eexists; eassumption). }
  destruct (is_item choice "Copy to Clipboard") eqn:Hcopy.
  { apply is_item_true in Hcopy. subst choice.
    unfold copyToClipboard, ui_bind, awaited, unawaited.
    destruct (env_host env _ (ClipboardWriteText _)); cbn [fst];
      intros H; rewrite !in_app_iff in H; cbn [In] in H;
      repeat match goal with
             | H : _ \/ _ |- _ => destruct H as [H | H]
             | H : False |- _ => destruct H
             end;
      try (now left); subst call; right; try exact I;
      (split; [reflexivity |]; eexists; eassumption). }
  unfold ui_return. cbn [fst]. intros H.
  apply in_app_iff in H as [H | [<- | []]]; [now left | right; exact I].
Qed.

Lemma handleError_extends (error : thrown) (trace : list HostCall) :
  exists rest, fst (handleError (env_host env) error trace) = trace ++ rest.
Proof.
  unfold handleError.
  destruct error as [[msg c] | cls msg | r | u]; cbn [code message];
    try (eexists; reflexivity).
  destruct c; try (eexists; reflexivity).
  unfold detached, showApiKeyError, ui_bind, awaited, ui_return. cbn [fst].
  destruct (env_host env trace _) as [e | action]; cbn [fst];
    [eexists; reflexivity |].
  destruct (is_item action "Open Settings"); [| eexists; reflexivity].
  destruct (env_host env _ (ExecuteCommand _ _)); cbn [fst];
    rewrite <- app_assoc; eexists; reflexivity.
Qed.

Lemma handleError_calls (error : thrown) (trace : list HostCall)
    (call : HostCall) :
  In call (fst (handleError (env_host env) error trace)) ->
  In call trace
  \/ match call with
     | ShowErrorMessage _ _ | ShowWarningMessage _ _ _ | ExecuteCommand _ _ => True
     | _ => False
     end.
Proof.
  unfold handleError.
  destruct error as [[msg c] | cls msg | r | u]; cbn [code message].
  - destruct c; unfold unawaited, detached, showApiKeyError, ui_bind, awaited,
      ui_return; cbn [fst];
      try (intros H; apply in_app_iff in H as [H | [<- | []]];
           [now left | right; exact I]).
    destruct (env_host env trace _) as [e | action]; cbn [fst];
      [| destruct (is_item action "Open Settings");
         [destruct (env_host env _ (ExecuteCommand _ _)) |]; cbn [fst]];
      intros H; rewrite !in_app_iff in H; cbn [In] in H;
      repeat match goal with
             | H : _ \/ _ |- _ => destruct H as [H | H]
             | H : False |- _ => destruct H
             end;
      try (now left); subst call; right; exact I.
  - unfold unawaited. cbn [fst]. intros H.
    apply in_app_iff in H as [H | [<- | []]]; [now left | right; exact I].
  - unfold unawaited. cbn [fst]. intros H.
    apply in_app_iff in H as [H | [<- | []]]; [now left | right; exact I].
  - unfold unawaited. cbn [fst]. intros H.
    apply in_app_iff in H as [H | [<- | []]]; [now left | right; exact I].
Qed.

(** Every call of a run of the command that hands text over. *)
Lemma command_calls (call : HostCall) :
  In call (fst (handleRefactorSelectedPrompt env [])) ->
  match call with
  | EditReplace range newText =>
      exists editor,
        activeTextEditor env = Some editor
        /\ range = selection editor
        /\ snd (command_run env editor) = Normal newText
        /\ (exists before,
               env_host env before refactored_dialog
               = Normal (Some (lit "Replace Selection")))
        /\ (exists before,
               env_host env before confirm_dialog
               = Normal (Some (lit "Yes, Replace")))
  | ClipboardWriteText content =>
      exists editor,
        activeTextEditor env = Some editor
        /\ snd (command_run env editor) = Normal content
        /\ exists before,
             env_host env before refactored_dialog
             = Normal (Some (lit "Copy to Clipboard"))
  | OpenTextDocument content language
  | ShowTextDocument content language _ =>
      exists editor,
        activeTextEditor env = Some editor
        /\ snd (command_run env editor) = Normal content
        /\ language = lit "markdown"
        /\ exists before,
             env_host env before refactored_dialog
             = Normal (Some (lit "Open in New Tab"))
  | _ => True
  end.
Proof.
  destruct (activeTextEditor env) as [editor |] eqn:Heditor.
  2:{ rewrite (proj1 (command_without_selection []) Heditor).
      cbn [fst app In]. intros [<- | []]. exact I. }
  assert (Hblank : whitespace_only (selected_text editor)
                   \/ ~ whitespace_only (selected_text editor)).
  { destruct (trim (selected_text editor)) eqn:E.
    - left. now apply trim_nil.
    - right. intros H. apply trim_whitespace_only in H. congruence. }
  destruct Hblank as [Hblank | Hselection].
  { rewrite (proj2 (command_without_selection []) editor Heditor Hblank).
    cbn [fst app In]. intros [<- | []]. exact I. }
  rewrite (command_on_selection editor [] Heditor Hselection). cbv zeta.
  assert (Hstarted : forall x,
             In x ([] ++ [progress_notification]
                      ++ map Fetch (fst (command_run env editor))) ->
             match x with
             | WithProgress _ | Fetch _ => True
             | _ => False
             end).
  { intros x Hx. cbn [app In] in Hx. destruct Hx as [<- | Hx]; [exact I |].
    apply in_map_iff in Hx as [fetched [<- _]]. exact I. }
  destruct (snd (command_run env editor)) as [e | refactored] eqn:Hrun.
  - intros H. apply handleError_calls in H as [H | H].
    + apply Hstarted in H. destruct call; try exact I; destruct H.
    + destruct call; try exact I; destruct H.
  - unfold ui_try_catch.
    destruct (showRefactoredPrompt _ _ _ _ _) as [trace' outcome] eqn:Hshown.
    assert (Hcalls : forall x, In x trace' ->
               In x ([] ++ [progress_notification]
                        ++ map Fetch (fst (command_run env editor)))
               \/ match x with
                  | EditReplace range newText =>
                      range = selection editor /\ newText = refactored
                      /\ (exists before,
                             env_host env before refactored_dialog
                             = Normal (Some (lit "Replace Selection")))
                      /\ (exists before,
                             env_host env before confirm_dialog
                             = Normal (Some (lit "Yes, Replace")))
                  | ClipboardWriteText content =>
                      content = refactored
                      /\ exists before,
                           env_host env before refactored_dialog
                           = Normal (Some (lit "Copy to Clipboard"))
                  | OpenTextDocument content language
                  | ShowTextDocument content language _ =>
                      content = refactored /\ language = lit "markdown"
                      /\ exists before,
                           env_host env before refactored_dialog
                           = Normal (Some (lit "Open in New Tab"))
                  | ShowInformationMessage _ _ | ShowWarningMessage _ _ _ => True
                  | _ => False
                  end).
    { intros x Hx. apply (showRefactoredPrompt_calls editor refactored).
      now rewrite Hshown. }
    assert (Hfinal : forall x, In x trace' ->
               match x with
               | EditReplace range newText =>
                   exists editor0,
                     Some editor = Some editor0
                     /\ range = selection editor0
                     /\ snd (command_run env editor0) = Normal newText
                     /\ (exists before,
                            env_host env before refactored_dialog
                            = Normal (Some (lit "Replace Selection")))
                     /\ (exists before,
                            env_host env before confirm_dialog
                            = Normal (Some (lit "Yes, Replace")))
               | ClipboardWriteText content =>
                   exists editor0,
                     Some editor = Some editor0
                     /\ snd (command_run env editor0) = Normal content
                     /\ exists before,
                          env_host env before refactored_dialog
                          = Normal (Some (lit "Copy to Clipboard"))
               | OpenTextDocument content language
               | ShowTextDocument content language _ =>
                   exists editor0,
                     Some editor = Some editor0
                     /\ snd (command_run env editor0) = Normal content
                     /\ language = lit "markdown"
                     /\ exists before,
                          env_host env before refactored_dialog
                          = Normal (Some (lit "Open in New Tab"))
               | _ => True
               end).
    { intros x Hx. destruct (Hcalls x Hx) as [H | H].
      - apply Hstarted in H. destruct x; try exact I; destruct H.
      - destruct x; try exact I;
          repeat match goal with
                 | H : _ /\ _ |- _ => destruct H
                 end;
          subst; exists editor; rewrite ?Hrun; repeat split; assumption. }
    destruct outcome as [e | []]; cbn [fst].
    + intros H. apply handleError_calls in H as [H | H].
      * now apply Hfinal.
      * destruct call; try exact I; destruct H.
    + apply Hfinal.
Qed.

(** X16. The command edits the document only after the service has
    succeeded, the user has picked "Replace Selection" and has then
    confirmed with "Yes, Replace"; the edit replaces the selection the
    command started with by the text the service returned, and by nothing
    else. *)
Theorem selection_is_replaced_only_on_confirmation
    (range : Selection) (newText : jsstring) :
  In (EditReplace range newText) (fst (handleRefactorSelectedPrompt env [])) ->
  exists editor,
    activeTextEditor env = Some editor
    /\ range = selection editor
    /\ snd (command_run env editor) = Normal newText
    /\ (exists before,
           env_host env before refactored_dialog
           = Normal (Some (lit "Replace Selection")))
    /\ (exists before,
           env_host env before confirm_dialog
           = Normal (Some (lit "Yes, Replace"))).
Proof. exact (command_calls (EditReplace range newText)). Qed.

(** X17. What the command writes to the clipboard, and what it opens in a
    new tab (as markdown), is the text the service returned, after the user
    has picked the matching item; nothing is written or opened when the
    service fails. *)
Theorem clipboard_and_new_tab_get_the_refactored_text (content : jsstring) :
  (In (ClipboardWriteText content) (fst (handleRefactorSelectedPrompt env [])) ->
   exists editor,
     activeTextEditor env = Some editor
     /\ snd (command_run env editor) = Normal content
     /\ exists before,
          env_host env before refactored_dialog
          = Normal (Some (lit "Copy to Clipboard")))
  /\ (forall language,
         In (OpenTextDocument content language)
           (fst (handleRefactorSelectedPrompt env [])) ->
         exists editor,
           activeTextEditor env = Some editor
           /\ snd (command_run env editor) = Normal content
           /\ language = lit "markdown"
           /\ exists before,
                env_host env before refactored_dialog
                = Normal (Some (lit "Open in New Tab"))).
Proof.
  split.
  - exact (command_calls (ClipboardWriteText content)).
  - intros language. exact (command_calls (OpenTextDocument content language)).
Qed.

End Commands.

(** * The panel and its webview *)

Section Webview.

Variable env : Environment.

Lemma posted_app (a b : list HostCall) : posted (a ++ b) = posted a ++ posted b.
Proof.
  induction a as [|call a IH]; [reflexivity |].
  destruct call; simpl; now rewrite IH.
Qed.

Lemma posted_fetch (calls : list FetchCall) : posted (map Fetch calls) = [].
Proof. induction calls; [reflexivity | exact IHcalls]. Qed.

Lemma trimmed_input_is_a_prompt (s : jsstring) :
  ~ whitespace_only s -> ~ whitespace_only (trim s).
Proof.
  intros Hs Htrim. apply Hs, trim_nil.
  rewrite <- trim_idempotent. now apply trim_whitespace_only.
Qed.

Lemma click_on_prompt (w : WebviewState) :
  refactorBtn_disabled w = false ->
  ~ whitespace_only (inputPrompt_value w) ->
  click_refactorBtn w
  = (w, [ {| command := lit "refactor";
             message_text := Some (trim (inputPrompt_value w)) |} ]).
Proof.
  intros Henabled Hinput. unfold click_refactorBtn, refactorBtn_click.
  rewrite Henabled. cbv zeta.
  destruct (truthy (VString (trim (inputPrompt_value w)))) eqn:E; [reflexivity |].
  elim Hinput. now apply truthy_trim.
Qed.

Lemma click_without_prompt (w : WebviewState) :
  refactorBtn_disabled w = true \/ whitespace_only (inputPrompt_value w) ->
  click_refactorBtn w = (w, []).
Proof.
  unfold click_refactorBtn, refactorBtn_click. intros [-> | Hblank];
    [reflexivity |].
  destruct (refactorBtn_disabled w); [reflexivity |]. cbv zeta.
  now rewrite (proj2 (truthy_trim _) Hblank).
Qed.

(** The exchange a click on the refactor button starts. *)
Lemma refactor_exchange (w : WebviewState) :
  refactorBtn_disabled w = false ->
  ~ whitespace_only (inputPrompt_value w) ->
  let run :=
    refactorPrompt (env_settings env) (env_net env) (trim (inputPrompt_value w)) []
  in
  exists answer,
    exchange env (click_refactorBtn w)
    = (window_message
         (window_message (window_message w (LoadingMessage true)) answer)
         (LoadingMessage false),
       [PostMessage (LoadingMessage true)]
         ++ map Fetch (fst run)
         ++ [PostMessage answer; PostMessage (LoadingMessage false)])
    /\ ((exists refactored,
            snd run = Normal refactored /\ answer = ResultMessage refactored)
        \/ (exists msg c,
               snd run = fails msg c
               /\ answer = ErrorMessage msg
                             match c with NO_API_KEY => true | _ => false end)
        \/ (exists raised,
               raises (env_net env)
                 (the_call (env_settings env) (trim (inputPrompt_value w)))
                 (ThrownUnprintable raised)
               /\ snd run = Throw raised
               /\ instanceof_LLMError raised = false
               /\ answer = ErrorMessage unexpected_error_message false)).
Proof.
  intros Henabled Hinput run.
  destruct (handleRefactor_on_prompt env (trim (inputPrompt_value w)) []
              (trimmed_input_is_a_prompt _ Hinput))
    as [answer [Hrun Hanswer]].
  exists answer. split; [| exact Hanswer].
  rewrite (click_on_prompt w Henabled Hinput).
  unfold exchange. cbn [fst snd handle_all].
  assert (Hhandled :
            handleMessage env
              {| command := lit "refactor";
                 message_text := Some (trim (inputPrompt_value w)) |} []
            = handleRefactor env (trim (inputPrompt_value w)) []) by reflexivity.
  rewrite Hhandled, Hrun. cbn [fst app].
  cbn [posted]. rewrite posted_app, posted_fetch. reflexivity.
Qed.


(** X19. While a request is pending, that is once the page has received
    [loading] on, neither a click on the refactor button nor Ctrl/Cmd +
    Enter posts anything, so the extension makes no call: the panel does not
    start a second request before the first has ended. *)
Theorem nothing_is_sent_while_loading (w : WebviewState) (e : KeyboardEvent) :
  let loading := window_message w (LoadingMessage true) in
  exchange env (click_refactorBtn loading) = (loading, [])
  /\ exchange env (inputPrompt_keydown loading e) = (loading, []).
Proof.
  cbv zeta. split.
  - reflexivity.
  - unfold inputPrompt_keydown. destruct (_ && _); reflexivity.
Qed.

(** X20. After a successful round, "Copy to Clipboard" hands the extension
    the very text that is shown, and the first call the extension makes is
    the write of that text to the clipboard; "Open in Editor" opens that
    text as markdown.  When the refactored text is empty neither button
    does anything. *)
Theorem buttons_hand_over_the_text_shown
    (w : WebviewState) (refactored : jsstring) :
  refactorBtn_disabled w = false ->
  ~ whitespace_only (inputPrompt_value w) ->
  snd (refactorPrompt (env_settings env) (env_net env)
         (trim (inputPrompt_value w)) [])
  = Normal refactored ->
  let after := fst (exchange env (click_refactorBtn w)) in
  outputArea_textContent after = refactored
  /\ (refactored = [] ->
      exchange env (copyBtn_click after) = (after, [])
      /\ exchange env (openEditorBtn_click after) = (after, []))
  /\ (refactored <> [] ->
      (exists rest,
          snd (exchange env (copyBtn_click after))
          = ClipboardWriteText refactored :: rest)
      /\ (exists rest,
             snd (exchange env (openEditorBtn_click after))
             = OpenTextDocument refactored (lit "markdown") :: rest)).
Proof.
  intros Henabled Hinput Hrun after.
  destruct (refactor_exchange w Henabled Hinput) as [answer [Hexchange Hanswer]].
  assert (Hanswered : answer = ResultMessage refactored).
  { destruct Hanswer
      as [[r [Hr ->]] | [[msg [c [Hr _]]] | [raised [_ [Hr _]]]]].
    - rewrite Hrun in Hr. now injection Hr as <-.
    - rewrite Hrun in Hr. discriminate.
    - rewrite Hrun in Hr. discriminate. }
  subst answer.
  assert (Hout : currentOutput after = refactored)
    by (unfold after; now rewrite Hexchange).
  split; [unfold after; now rewrite Hexchange |]. split.
  - intros Hempty. unfold copyBtn_click, openEditorBtn_click.
    rewrite Hout, Hempty. split; reflexivity.
  - intros Hne.
    assert (Htruthy : truthy (VString refactored) = true)
      by (destruct refactored; [now elim Hne | reflexivity]).
    assert (Htext : has_text (Some refactored) = true) by exact Htruthy.
    unfold copyBtn_click, openEditorBtn_click. rewrite Hout, Htruthy.
    unfold exchange. cbn [fst snd handle_all]. unfold handleMessage.
    cbn [command message_text].
    change (jsstring_eqb (lit "copyToClipboard") (lit "refactor")) with false.
    change (jsstring_eqb (lit "copyToClipboard") (lit "copyToClipboard")) with true.
    change (jsstring_eqb (lit "openInEditor") (lit "refactor")) with false.
    change (jsstring_eqb (lit "openInEditor") (lit "copyToClipboard")) with false.
    change (jsstring_eqb (lit "openInEditor") (lit "openInEditor")) with true.
    rewrite Htext. cbv beta iota. cbn [text_or_empty].
    unfold ui_bind, awaited, unawaited, ui_return. cbn [app].
    split.
    + destruct (env_host env [] (ClipboardWriteText refactored)); cbn [fst];
        eexists; reflexivity.
    + destruct (env_host env [] (OpenTextDocument refactored (lit "markdown")));
        cbn [fst]; [eexists; reflexivity |].
      destruct (env_host env _ (ShowTextDocument _ _ _)); cbn [fst];
        eexists; reflexivity.
Qed.

End Webview.

(** * What reaches the network and the page *)

Section Prompts.

Variable env : Environment.

Lemma run_calls (rawPrompt : jsstring) (call : FetchCall) :
  In call (fst (refactorPrompt (env_settings env) (env_net env) rawPrompt [])) ->
  call = the_call (env_settings env) rawPrompt.
Proof.
  rewrite calls_made. cbn [app].
  destruct (validateApiKey _); [intros [] | intros [<- | []]; reflexivity].
Qed.

Lemma command_fetches (call : FetchCall) :
  In (Fetch call) (fst (handleRefactorSelectedPrompt env [])) ->
  exists editor,
    activeTextEditor env = Some editor
    /\ In call (fst (command_run env editor)).
Proof.
  destruct (activeTextEditor env) as [editor |] eqn:Heditor.
  2:{ rewrite (proj1 (command_without_selection env []) Heditor).
      cbn [fst app In]. intros [H | []]. discriminate H. }
  destruct (trim (selected_text editor)) eqn:Htrim.
  { apply trim_nil in Htrim.
    rewrite (proj2 (command_without_selection env []) editor
               Heditor Htrim).
    cbn [fst app In]. intros [H | []]. discriminate H. }
  assert (Hselection : ~ whitespace_only (selected_text editor)).
  { intros H. apply trim_whitespace_only in H. congruence. }
  rewrite (command_on_selection env editor [] Heditor Hselection). cbv zeta.
  assert (Hstarted :
            In (Fetch call)
              ([] ++ [progress_notification]
                  ++ map Fetch (fst (command_run env editor))) ->
            exists editor0,
              Some editor = Some editor0
              /\ In call (fst (command_run env editor0))).
  { cbn [app In]. intros [H | H]; [discriminate H |].
    apply in_map_iff in H as [fetched [H Hin]]. injection H as ->.
    now exists editor. }
  destruct (snd (command_run env editor)) as [e | refactored].
  - intros H. apply handleError_calls in H as [H | []]. now apply Hstarted.
  - unfold ui_try_catch.
    destruct (showRefactoredPrompt _ _ _ _ _) as [trace' outcome] eqn:Hshown.
    assert (Hshow : In (Fetch call) trace' ->
              exists editor0,
                Some editor = Some editor0
                /\ In call (fst (command_run env editor0))).
    { intros H.
      destruct (showRefactoredPrompt_calls env editor refactored
                  ([] ++ [progress_notification]
                      ++ map Fetch (fst (command_run env editor)))
                  (Fetch call))
        as [Hin | []]; [now rewrite Hshown | now apply Hstarted]. }
    destruct outcome as [e | []]; cbn [fst]; [| exact Hshow].
    intros H. apply handleError_calls in H as [H | []]. now apply Hshow.
Qed.

(** X21. The two entry points do not send the same text.  The panel sends
    the input trimmed: every request of an exchange started by the refactor
    button carries the trimmed input as the content of the user message.
    The command sends the selection as it is, leading and trailing white
    space included. *)
Theorem panel_sends_trimmed_input_command_sends_selection :
  (forall w call,
      In (Fetch call) (snd (exchange env (click_refactorBtn w))) ->
      body (init call)
      = Some (wire_body (getConfig (env_settings env))
                (trim (inputPrompt_value w))))
  /\ (forall call,
         In (Fetch call) (fst (handleRefactorSelectedPrompt env [])) ->
         exists editor,
           activeTextEditor env = Some editor
           /\ body (init call)
              = Some (wire_body (getConfig (env_settings env))
                        (selected_text editor))).
Proof.
  split.
  - intros w call.
    destruct (refactorBtn_disabled w) eqn:Hdisabled.
    { rewrite (click_without_prompt w (or_introl Hdisabled)). intros []. }
    destruct (trim (inputPrompt_value w)) eqn:Htrim.
    { apply trim_nil in Htrim.
      rewrite (click_without_prompt w (or_intror Htrim)). intros []. }
    assert (Hinput : ~ whitespace_only (inputPrompt_value w)).
    { intros H. apply trim_whitespace_only in H. congruence. }
    rewrite <- Htrim.
    destruct (refactor_exchange env w Hdisabled Hinput) as [answer [-> _]].
    cbn [snd app In]. intros [H | H]; [discriminate H |].
    apply in_app_iff in H as [H | [H | [H | []]]]; try discriminate H.
    apply in_map_iff in H as [fetched [H Hin]]. injection H as ->.
    now rewrite (run_calls _ _ Hin).
  - intros call H. apply command_fetches in H as [editor [Heditor Hin]].
    exists editor. split; [exact Heditor |].
    now rewrite (run_calls _ _ Hin).
Qed.

(** X22. The page shows an HTTP error as HTML.  When the response has a
    status outside 200-299 other than 429 and 401, the text of its body,
    whatever markup it holds, ends up inside [errorContainer.innerHTML] as
    it came, and the container is shown. *)
Theorem response_body_lands_in_the_page_as_html
    (w : WebviewState) (response : Response) (errorBody : jsstring) :
  refactorBtn_disabled w = false ->
  ~ whitespace_only (inputPrompt_value w) ->
  trim (apiKey (getConfig (env_settings env))) <> [] ->
  env_net env (the_call (env_settings env) (trim (inputPrompt_value w)))
  = Normal response ->
  (status response < 200 \/ 299 < status response)%Z ->
  status response <> 429%Z ->
  status response <> 401%Z ->
  text response = Normal errorBody ->
  let after := fst (exchange env (click_refactorBtn w)) in
  errorContainer_hidden after = false
  /\ errorContainer_innerHTML after
     = lit "API request failed (" ++ integer_toString (status response)
         ++ lit "): " ++ errorBody
  /\ contains (errorContainer_innerHTML after) errorBody.
Proof.
  intros Henabled Hinput Hkey Hnet Hrange H429 H401 Htext after.
  pose proof (http_error_outcome (env_settings env) (env_net env)
                (trim (inputPrompt_value w)) [] response Hkey Hnet errorBody
                Hrange H429 H401 Htext) as Hrun.
  destruct (refactor_exchange env w Henabled Hinput) as [answer [Hexchange Hanswer]].
  assert (Hanswered :
            answer = ErrorMessage
                       (lit "API request failed ("
                          ++ integer_toString (status response)
                          ++ lit "): " ++ errorBody) false).
  { destruct Hanswer
      as [[r [Hr _]] | [[msg [c [Hr ->]]] | [raised [_ [Hr [Hllm _]]]]]];
      rewrite Hrun in Hr; [discriminate | |].
    - now injection Hr as <- <-.
    - injection Hr as <-. discriminate Hllm. }
  subst answer. unfold after. rewrite Hexchange. cbn [fst].
  split; [reflexivity |]. split; [reflexivity |].
  cbn [window_message errorContainer_innerHTML].
  apply contains_app_r, contains_app_r, contains_suffix.
Qed.

End Prompts.

(** * A confirmed replacement *)

Section Replacement.

Variable env : Environment.

(** X23. When the service has succeeded and the user picks "Replace
    Selection" and confirms, the command asks the editor to replace the
    selection by the text the service returned, right after the two
    dialogs and without looking at that text: a refactored text that is
    empty replaces the selection by nothing. *)
Theorem confirmed_replacement_is_made
    (editor : TextEditor) (refactored : jsstring) :
  activeTextEditor env = Some editor ->
  ~ whitespace_only (selected_text editor) ->
  snd (command_run env editor) = Normal refactored ->
  (forall before,
      env_host env before refactored_dialog
      = Normal (Some (lit "Replace Selection"))) ->
  (forall before,
      env_host env before confirm_dialog = Normal (Some (lit "Yes, Replace"))) ->
  exists rest,
    fst (handleRefactorSelectedPrompt env [])
    = [progress_notification]
        ++ map Fetch (fst (command_run env editor))
        ++ [ refactored_dialog; confirm_dialog;
             EditReplace (selection editor) refactored ]
        ++ rest.
Proof.
  intros Heditor Hselection Hrun Hreplace Hconfirm.
  rewrite (command_on_selection env editor [] Heditor Hselection). cbv zeta.
  rewrite Hrun.
  unfold ui_try_catch, showRefactoredPrompt, ui_bind at 1, awaited at 1.
  fold refactored_dialog. rewrite Hreplace.
  change (is_item (Some (lit "Replace Selection")) "Replace Selection") with true.
  cbv beta iota.
  unfold replaceSelection, ui_bind at 1, awaited at 1.
  fold confirm_dialog. rewrite Hconfirm.
  change (is_item (Some (lit "Yes, Replace")) "Yes, Replace") with true.
  cbv beta iota. unfold ui_bind, awaited, unawaited.
  destruct (env_host env _ (EditReplace _ _)) as [e | edited] eqn:Hedit.
  - match goal with
    | |- context [handleError (env_host env) e ?t] =>
        destruct (handleError_extends env e t) as [rest ->]
    end.
    exists rest. cbn [app]. rewrite <- !app_assoc. reflexivity.
  - cbn [fst].
    exists [ShowInformationMessage (lit "Prompt replaced successfully!") []].
    cbn [app]. rewrite <- !app_assoc. reflexivity.
Qed.

End Replacement.

(** * Concrete runs of the extension *)

Section ConcreteExtension.

Lemma not_blank (s : jsstring) : trim s <> [] -> ~ whitespace_only s.
Proof. intros Hs Hblank. now apply Hs, trim_whitespace_only. Qed.

(** One call, to the default endpoint, with the key as bearer token. *)
Lemma example_run_makes_one_call :
  fst (refactorPrompt example_settings (failing not_json) example_prompt [])
  = [ {| url := lit "https://api.openai.com/v1/chat/completions";
         init :=
           {| method := lit "POST";
              headers :=
                [ (lit "Content-Type", lit "application/json");
                  (lit "Authorization", lit "Bearer sk-test") ];
              body := Some (wire_body (getConfig example_settings)
                              example_prompt) |} |} ].
Proof.
  refine (proj2 (one_call_with_a_key_none_without
                   example_settings (failing not_json) example_prompt) _).
  apply not_blank. discriminate.
Defined.

Lemma improved_text_has_its_origin :
  trim (apiKey (getConfig example_settings)) <> []
  /\ exists response data data_error content,
       improving_net (the_call example_settings example_prompt) = Normal response
       /\ ok response = true
       /\ json response = Normal data
       /\ Get data P_error = Normal data_error
       /\ truthy data_error = false
       /\ choices_0_message_content data = Normal (VString content)
       /\ content <> []
       /\ lit "Improved text" = trim content.
Proof.
  exact (success_means_nonempty_string_content
           example_settings improving_net example_prompt []
           (lit "Improved text") eq_refl).
Defined.

Lemma improved_text_is_trimmed :
  (forall c rest, lit "Improved text" = c :: rest -> is_white_space c = false)
  /\ (forall front c,
         lit "Improved text" = front ++ [c] -> is_white_space c = false)
  /\ trim (lit "Improved text") = lit "Improved text".
Proof.
  exact (returned_text_is_trimmed
           example_settings improving_net example_prompt []
           (lit "Improved text") eq_refl).
Defined.

(** A body whose [content] is a Number ends in [API_ERROR]. *)
Lemma numeric_content_is_api_error :
  (exists refactored,
      snd (refactorPrompt example_settings
             (answering (json_response 200 (completion_of (VNumber (number_of_Z 5)))))
             example_prompt [])
      = Normal refactored)
  \/ snd (refactorPrompt example_settings
            (answering (json_response 200 (completion_of (VNumber (number_of_Z 5)))))
            example_prompt [])
     = fails invalid_response_message INVALID_RESPONSE
  \/ (exists msg,
         snd (refactorPrompt example_settings
                (answering (json_response 200
                              (completion_of (VNumber (number_of_Z 5)))))
                example_prompt [])
         = fails msg API_ERROR).
Proof.
  exact (parsed_body_gives_text_or_invalid_or_api_error
           example_settings
           (answering (json_response 200 (completion_of (VNumber (number_of_Z 5)))))
           example_prompt []
           (json_response 200 (completion_of (VNumber (number_of_Z 5))))
           (completion_of (VNumber (number_of_Z 5)))
           example_key_configured eq_refl eq_refl eq_refl).
Defined.

(** A [RATE_LIMIT] error points at a response with status 429. *)
Lemma rate_limit_names_status_429 :
  raises (answering (text_response 429 (Some (lit "30")) []))
    (the_call example_settings example_prompt)
    (ThrownLLMError
       {| message := lit "Rate limit exceeded. Please try again in 30 seconds.";
          code := RATE_LIMIT |})
  \/ raises (answering (text_response 429 (Some (lit "30")) []))
       (the_call example_settings example_prompt)
       (ThrownUnprintable
          (ThrownLLMError
             {| message :=
                  lit "Rate limit exceeded. Please try again in 30 seconds.";
                code := RATE_LIMIT |}))
  \/ exists response,
       answering (text_response 429 (Some (lit "30")) [])
         (the_call example_settings example_prompt)
       = Normal response
       /\ status response = 429%Z.
Proof.
  exact (error_code_names_its_cause
           example_settings
           (answering (text_response 429 (Some (lit "30")) []))
           example_prompt []
           (lit "Rate limit exceeded. Please try again in 30 seconds.")
           RATE_LIMIT eq_refl).
Defined.

(** Why the conversion by [String] is among the causes: the transport
    rejects with a value whose [toString] throws an [LLMError] with code
    [RATE_LIMIT]; the run rejects with that error, though the transport
    raised no [LLMError] and gave no response at all. *)
Example conversion_can_raise_an_LLMError :
  let net :=
    failing (ThrownUnprintable
               (ThrownLLMError {| message := lit "later"; code := RATE_LIMIT |}))
  in
  snd (refactorPrompt example_settings net example_prompt [])
  = fails (lit "later") RATE_LIMIT
  /\ ~ raises net (the_call example_settings example_prompt)
         (ThrownLLMError {| message := lit "later"; code := RATE_LIMIT |})
  /\ ~ (exists response,
          net (the_call example_settings example_prompt) = Normal response
          /\ status response = 429%Z).
Proof.
  cbv zeta. split; [reflexivity |]. split.
  - intros [H | response H | response H]; discriminate H.
  - intros [response [H _]]. discriminate H.
Qed.

(** An [error] that is a string, not an object. *)
Lemma string_error_is_api_error :
  exists msg,
    snd (refactorPrompt example_settings
           (answering (json_response 200
                         (VObject [ (lit "error", VString (lit "overloaded")) ])))
           example_prompt [])
    = fails msg API_ERROR.
Proof.
  exact (any_truthy_error_is_api_error
           example_settings
           (answering (json_response 200
                         (VObject [ (lit "error", VString (lit "overloaded")) ])))
           example_prompt []
           (json_response 200
              (VObject [ (lit "error", VString (lit "overloaded")) ]))
           (VObject [ (lit "error", VString (lit "overloaded")) ])
           (VString (lit "overloaded"))
           example_key_configured eq_refl eq_refl eq_refl eq_refl eq_refl).
Defined.

(** Settings with everything but the key. *)
Lemma settings_without_key_fail :
  refactorPrompt
    {| setting_apiKey := None;
       setting_apiEndpoint := Some (lit "https://llm.example/v1/chat");
       setting_model := Some (lit "gpt-4o");
       setting_maxTokens := Some (number_of_Z 64) |}
    improving_net example_prompt []
  = ([], fails no_api_key_message NO_API_KEY).
Proof.
  exact (unset_api_key_fails_before_any_call
           {| setting_apiKey := None;
              setting_apiEndpoint := Some (lit "https://llm.example/v1/chat");
              setting_model := Some (lit "gpt-4o");
              setting_maxTokens := Some (number_of_Z 64) |}
           improving_net example_prompt [] eq_refl).
Defined.

(** The panel is handed one space and one line feed. *)
Lemma panel_refuses_a_blank_prompt :
  handleRefactor (example_env dismissing_host improving_net None) [32; 10]%N []
  = ([PostMessage (ErrorMessage enter_a_prompt_message false)], Normal tt).
Proof.
  refine (blank_prompt_is_refused_by_the_panel
            (example_env dismissing_host improving_net None) [32; 10]%N [] _).
  repeat constructor.
Defined.


(** The transport rejects with [Object.create(null)]: the panel posts the
    fallback text, between the two [loading] messages. *)
Example panel_posts_the_fallback_text :
  handleRefactor
    (example_env dismissing_host (failing null_prototype_object) None)
    example_prompt []
  = ([ PostMessage (LoadingMessage true);
       Fetch (the_call example_settings example_prompt);
       PostMessage (ErrorMessage (lit "An unexpected error occurred.") false);
       PostMessage (LoadingMessage false) ],
     Normal tt).
Proof. reflexivity. Qed.

(** A message with a command the panel does not know. *)
Lemma unknown_command_is_ignored :
  handleMessage (example_env accepting_host improving_net None)
    {| command := lit "dance"; message_text := Some (lit "now") |} []
  = ([], Normal tt).
Proof.
  refine (idle_messages_make_no_call
            (example_env accepting_host improving_net None)
            {| command := lit "dance"; message_text := Some (lit "now") |} [] _).
  left. repeat split; discriminate.
Defined.

(** The clipboard refuses the write: no notice, the handler rejects. *)
Lemma refused_copy_is_not_confirmed :
  handleMessage (example_env failing_clipboard_host improving_net None)
    {| command := lit "copyToClipboard";
       message_text := Some (lit "Improved text") |} []
  = ([ClipboardWriteText (lit "Improved text")], Throw clipboard_failure).
Proof.
  refine (proj2
            (panel_copies_then_confirms
               (example_env failing_clipboard_host improving_net None)
               (lit "Improved text") [] _)
            clipboard_failure eq_refl).
  discriminate.
Defined.

(** The command without an editor. *)
Lemma command_without_editor_warns :
  handleRefactorSelectedPrompt (example_env accepting_host improving_net None) []
  = ([ShowWarningMessage
        (lit "No active editor found. Please open a file first.") false []],
     Normal tt).
Proof.
  exact (proj1
           (command_needs_an_editor_and_a_selection
              (example_env accepting_host improving_net None) [])
           eq_refl).
Defined.

(** The key is rejected with 401 and the user picks "Open Settings". *)
Lemma rejected_key_leads_to_the_settings :
  handleRefactorSelectedPrompt
    (example_env accepting_host (answering (text_response 401 None []))
       (Some example_editor)) []
  = ([progress_notification]
       ++ map Fetch
            (fst (command_run
                    (example_env accepting_host
                       (answering (text_response 401 None []))
                       (Some example_editor))
                    example_editor))
       ++ [ ShowErrorMessage (lit "PromptLint: " ++ invalid_api_key_message)
              [lit "Open Settings"];
            ExecuteCommand (lit "workbench.action.openSettings")
              (lit "promptlint.apiKey") ],
     Normal tt).
Proof.
  refine (failed_run_shows_one_dialog
            (example_env accepting_host (answering (text_response 401 None []))
               (Some example_editor))
            example_editor [] invalid_api_key_message NO_API_KEY
            eq_refl _ eq_refl).
  apply not_blank. discriminate.
Defined.

(** The user picks "Replace Selection" and confirms. *)
Lemma confirmed_replacement_has_its_reasons :
  exists editor,
    Some example_editor = Some editor
    /\ selection example_editor = selection editor
    /\ snd (command_run
              (example_env accepting_host improving_net (Some example_editor))
              editor)
       = Normal (lit "Improved text")
    /\ (exists before,
           accepting_host before refactored_dialog
           = Normal (Some (lit "Replace Selection")))
    /\ (exists before,
           accepting_host before confirm_dialog
           = Normal (Some (lit "Yes, Replace"))).
Proof.
  refine (selection_is_replaced_only_on_confirmation
            (example_env accepting_host improving_net (Some example_editor))
            (selection example_editor) (lit "Improved text") _).
  vm_compute. do 4 right. left. reflexivity.
Defined.

(** The user picks "Copy to Clipboard". *)
Lemma copied_text_is_the_refactored_text :
  exists editor,
    Some example_editor = Some editor
    /\ snd (command_run
              (example_env copying_host improving_net (Some example_editor))
              editor)
       = Normal (lit "Improved text")
    /\ exists before,
         copying_host before refactored_dialog
         = Normal (Some (lit "Copy to Clipboard")).
Proof.
  refine (proj1
            (clipboard_and_new_tab_get_the_refactored_text
               (example_env copying_host improving_net (Some example_editor))
               (lit "Improved text")) _).
  vm_compute. do 3 right. left. reflexivity.
Defined.


(** The same round when the transport rejects with [Object.create(null)]:
    the page shows the fallback text. *)
Example the_page_shows_the_fallback_text :
  let after :=
    fst (exchange
           (example_env dismissing_host (failing null_prototype_object) None)
           (click_refactorBtn typed_page)) in
  errorContainer_hidden after = false
  /\ errorContainer_innerHTML after = lit "An unexpected error occurred."
  /\ outputSection_hidden after = true
  /\ loadingIndicator_hidden after = true
  /\ refactorBtn_disabled after = false.
Proof. repeat split. Qed.

(** After that round the buttons hand over "Improved text". *)
Lemma buttons_after_the_round :
  let after :=
    fst (exchange (example_env dismissing_host improving_net None)
           (click_refactorBtn typed_page)) in
  outputArea_textContent after = lit "Improved text"
  /\ (lit "Improved text" = [] ->
      exchange (example_env dismissing_host improving_net None)
        (copyBtn_click after) = (after, [])
      /\ exchange (example_env dismissing_host improving_net None)
           (openEditorBtn_click after) = (after, []))
  /\ (lit "Improved text" <> [] ->
      (exists rest,
          snd (exchange (example_env dismissing_host improving_net None)
                 (copyBtn_click after))
          = ClipboardWriteText (lit "Improved text") :: rest)
      /\ (exists rest,
             snd (exchange (example_env dismissing_host improving_net None)
                    (openEditorBtn_click after))
             = OpenTextDocument (lit "Improved text") (lit "markdown") :: rest)).
Proof.
  refine (buttons_hand_over_the_text_shown
            (example_env dismissing_host improving_net None)
            typed_page (lit "Improved text") eq_refl _ eq_refl).
  apply not_blank. discriminate.
Defined.

(** The request of that round carries "write code for login". *)
Lemma typed_input_is_sent_trimmed :
  body (init (the_call example_settings (lit "write code for login")))
  = Some (wire_body (getConfig example_settings) (lit "write code for login")).
Proof.
  refine (proj1
            (panel_sends_trimmed_input_command_sends_selection
               (example_env dismissing_host improving_net None))
            typed_page
            (the_call example_settings (lit "write code for login")) _).
  vm_compute. right. left. reflexivity.
Defined.

(** A 500 response whose body holds markup. *)
Lemma markup_of_a_500_is_shown :
  let after :=
    fst (exchange (example_env dismissing_host exploding_net None)
           (click_refactorBtn typed_page)) in
  errorContainer_hidden after = false
  /\ errorContainer_innerHTML after
     = lit "API request failed (" ++ integer_toString 500
         ++ lit "): " ++ markup_body
  /\ contains (errorContainer_innerHTML after) markup_body.
Proof.
  refine (response_body_lands_in_the_page_as_html
            (example_env dismissing_host exploding_net None)
            typed_page (text_response 500 None markup_body) markup_body
            eq_refl _ example_key_configured eq_refl _ _ _ eq_refl).
  - apply not_blank. discriminate.
  - right. reflexivity.
  - discriminate.
  - discriminate.
Defined.

(** A completion of white space only, accepted and confirmed: the
    selection is replaced by the empty text. *)
Lemma blank_completion_empties_the_selection :
  exists rest,
    fst (handleRefactorSelectedPrompt
           (example_env accepting_host blank_completion_net (Some example_editor))
           [])
    = [progress_notification]
        ++ map Fetch
             (fst (command_run
                     (example_env accepting_host blank_completion_net
                        (Some example_editor))
                     example_editor))
        ++ [ refactored_dialog; confirm_dialog;
             EditReplace (selection example_editor) [] ]
        ++ rest.
Proof.
  refine (confirmed_replacement_is_made
            (example_env accepting_host blank_completion_net (Some example_editor))
            example_editor [] eq_refl _ eq_refl _ _).
  - apply not_blank. discriminate.
  - intros before. reflexivity.
  - intros before. reflexivity.
Defined.

End ConcreteExtension.
